(** * PyUnitWizard: the string parser and the exception taxonomy

    A shallow embedding of [pyunitwizard/parse.py] and of
    [pyunitwizard/_private/exceptions/no_standards_error.py].

    A Python [str] is a [string]; indices and the results of [str.rfind]
    are integers ([Z]), because [rfind] answers [-1] when nothing is found
    and the source does arithmetic on that answer. *)

From Stdlib Require Import ZArith Ascii Lia Bool.
From stdpp Require Import base strings gmap.

Local Open Scope Z_scope.

(** ** Python string primitives used by the parser *)

Module PyStr.

(** [len(s)] *)
Definition len (s : string) : Z := Z.of_nat (String.length s).

(** [s.startswith(p)] *)
Definition startswith (s p : string) : bool := String.prefix p s.

(** The first [n] characters of [s], all of [s] when it is shorter. *)
Fixpoint take (n : nat) (s : string) : string :=
  match n, s with
  | O, _ => EmptyString
  | S _, EmptyString => EmptyString
  | S n', String a s' => String a (take n' s')
  end.

(** [s] without its first [n] characters, empty when it is shorter. *)
Fixpoint drop (n : nat) (s : string) : string :=
  match n, s with
  | O, _ => s
  | S _, EmptyString => EmptyString
  | S n', String _ s' => drop n' s'
  end.

(** How a slice bound is normalised: a negative bound counts from the end,
    and every bound is clamped to [0 .. len]. *)
Definition bound (i n : Z) : Z :=
  if i <? 0 then Z.max 0 (i + n) else Z.min i n.

(** [s[:stop]] *)
Definition slice_to (s : string) (stop : Z) : string :=
  take (Z.to_nat (bound stop (len s))) s.

(** [s[start:]] *)
Definition slice_from (s : string) (start : Z) : string :=
  drop (Z.to_nat (bound start (len s))) s.

(** The scan behind [s.rfind(c)] for a one-character [c]: [i] is the index
    of the head of [s] in the whole string, [last] the highest index seen
    so far at which [c] stands. *)
Fixpoint rfind_from (c : ascii) (s : string) (i last : Z) : Z :=
  match s with
  | EmptyString => last
  | String a s' =>
      rfind_from c s' (i + 1) (if Ascii.eqb a c then i else last)
  end.

(** [s.rfind(c)]: the highest index at which [c] stands, [-1] if none. *)
Definition rfind (c : ascii) (s : string) : Z := rfind_from c s 0 (-1).

End PyStr.

(** ** The payload/unit split of [_parse_with_pint] *)

(** [string.startswith('[') or string.startswith('(')] *)
Definition is_non_scalar (s : string) : bool :=
  PyStr.startswith s "[" || PyStr.startswith s "(".

(** [end_list = max(string.rfind(')')+1, string.rfind(']')+1)] *)
Definition end_list (s : string) : Z :=
  Z.max (PyStr.rfind ")" s + 1) (PyStr.rfind "]" s + 1).

(** [value_string = string[:end_list]] *)
Definition value_string (s : string) : string := PyStr.slice_to s (end_list s).

(** [unit_string = string[end_list:]] *)
Definition unit_string (s : string) : string := PyStr.slice_from s (end_list s).

(** *** Vocabulary for stating where the split falls *)

(** A closing bracket of either kind. *)
Definition is_closer (a : ascii) : bool := Ascii.eqb a ")" || Ascii.eqb a "]".

(** No closing bracket anywhere in [s]. *)
Fixpoint no_closer (s : string) : bool :=
  match s with
  | EmptyString => true
  | String a s' => negb (is_closer a) && no_closer s'
  end.

(** Index [i] holds the last closing bracket of [s]: a closing bracket stands
    there and none stands after it. *)
Definition is_last_closer (s : string) (i : nat) : bool :=
  match String.get i s with
  | Some a => is_closer a && no_closer (PyStr.drop (S i) s)
  | None => false
  end.

(** Character [c] stands at index [i] of [s]. *)
Definition at_index (s : string) (i : nat) (c : ascii) : Prop :=
  String.get i s = Some c.

(** ** Outcomes of Python code: a value or a raised exception *)

(** The exceptions that the two modules can raise. The first four are the
    classes of [no_standards_error.py]; each holds the message that its
    [__init__] hands to [super().__init__].

    Modelled from the spec: [BadCallError] and [NotImplementedParsingError],
    which [parse.py] raises but whose classes are not part of the sources at
    hand. The taxonomy table of the specification says that the first carries
    the argument name and the second the source and the target form, so each
    is recorded with the arguments of its constructor call.

    The remaining constructors are the built-in exceptions that the modelled
    statements can raise, and [Raised] stands for whatever a collaborator
    ([ast.literal_eval], a converter of the translation table, a digestion
    function, the multiplication of the quantity library) raises. *)
Inductive Exn : Type :=
| NoStandardsError (message : string)
| UnknownFormError (message : string)
| LibraryNotFoundError (message : string)
| LibraryWithoutParserError (message : string)
| BadCallError (argument : string)
| NotImplementedParsingError (parser to_form : string)
| NameError (name : string)
| ModuleNotFoundError (module_name : string)
| ImportError (module_name name : string)
| IndexError
| KeyError (key : string)
| TypeError (callee : string) (given : nat)
| Raised (kind message : string).

Inductive outcome (A : Type) : Type :=
| Return (a : A)
| Raise (e : Exn).
Arguments Return {A} a.
Arguments Raise {A} e.

#[global] Instance outcome_ret : MRet outcome := fun A a => Return a.
#[global] Instance outcome_bind : MBind outcome := fun A B f m =>
  match m with
  | Return a => f a
  | Raise e => Raise e
  end.

(** ** The exception classes of [no_standards_error.py] *)

(** One entry of [inspect.stack()]. A [FrameInfo] is the tuple
    [(frame, filename, lineno, function, code_context, index)]; the
    constructors read only its item 3, the name of the function. *)
Record FrameInfo : Type := {
  filename : string;
  lineno : Z;
  function : string
}.

(** [frame_info[3]] *)
Definition frame_item3 (fi : FrameInfo) : string := function fi.

(** The frame of an executing [__init__] of [no_standards_error.py]. *)
Definition init_frame (line : Z) : FrameInfo :=
  {| filename := "pyunitwizard/_private/exceptions/no_standards_error.py";
     lineno := line; function := "__init__" |}.

(** [inspect.stack()] called at [line] of an [__init__] that was itself
    called with the stack [callers] (innermost frame first). *)
Definition inspect_stack (line : Z) (callers : list FrameInfo) : list FrameInfo :=
  init_frame line :: callers.

(** [frames[i]] for a non-negative literal [i] *)
Definition getitem (frames : list FrameInfo) (i : nat) : outcome FrameInfo :=
  match frames !! i with
  | Some fi => Return fi
  | None => Raise IndexError
  end.

(** The names bound at the top level of [no_standards_error.py]: the module
    holds the four class statements and nothing else. *)
Definition module_globals : list string :=
  ["NoStandardsError"; "UnknownFormError"; "LibraryNotFoundError";
   "LibraryWithoutParserError"].

(** Reading, in an f-string, a name that the function never assigns: Python
    compiles it to a global load, which looks the name up in the module's
    namespace (a class formats as its [repr]) and raises [NameError] when it
    is bound neither there nor among the built-ins. Only names that are not
    built-ins are read this way here. *)
Definition load_global (name : string) : outcome string :=
  if bool_decide (name ∈ module_globals)
  then Return ("<class 'pyunitwizard._private.exceptions.no_standards_error."
               +:+ name +:+ "'>")
  else Raise (NameError name).

(** The double quote character, written with its code. *)
Definition dquote : string := String "034"%char EmptyString.

(** The f-string of [NoStandardsError.__init__]. *)
Definition NoStandardsError_message (api_doc github_issues_web : string) : string :=
  "The input quantity method has no standard. "
  +:+ "A complete set of standard units need to be defined. "
  +:+ "Check " +:+ api_doc +:+ " for more information. "
  +:+ "If you still need help, open a new issue in " +:+ github_issues_web +:+ ".".

(** The f-string of [UnknownFormError.__init__]. *)
Definition UnknownFormError_message (method_name api_doc github_issues_web : string) : string :=
  "The input quantity in " +:+ dquote +:+ method_name +:+ dquote
  +:+ " has an unknown form. "
  +:+ "Check " +:+ api_doc +:+ " for more information. "
  +:+ "If you still need help, open a new issue in " +:+ github_issues_web +:+ ".".

(** The f-string of [LibraryNotFoundError.__init__]. *)
Definition LibraryNotFoundError_message (library caller_name github_issues_web : string) : string :=
  "The python library " +:+ library +:+ " was not found. "
  +:+ "Although " +:+ library +:+ " is not considered a dependency, it needs "
  +:+ "to be installed to execute the " +:+ caller_name +:+ " method the way you require. "
  +:+ "If you still need help, open a new issue in " +:+ github_issues_web +:+ ".".

(** The f-string of [LibraryWithoutParserError.__init__]; the source has the
    same text here as in [LibraryNotFoundError.__init__]. *)
Definition LibraryWithoutParserError_message (library caller_name github_issues_web : string) : string :=
  "The python library " +:+ library +:+ " was not found. "
  +:+ "Although " +:+ library +:+ " is not considered a dependency, it needs "
  +:+ "to be installed to execute the " +:+ caller_name +:+ " method the way you require. "
  +:+ "If you still need help, open a new issue in " +:+ github_issues_web +:+ ".".

(** The four classes, as the callee of a constructor call. *)
Inductive ExnClass : Type :=
| NoStandardsErrorC
| UnknownFormErrorC
| LibraryNotFoundErrorC
| LibraryWithoutParserErrorC.

Definition class_name (cls : ExnClass) : string :=
  match cls with
  | NoStandardsErrorC => "NoStandardsError"
  | UnknownFormErrorC => "UnknownFormError"
  | LibraryNotFoundErrorC => "LibraryNotFoundError"
  | LibraryWithoutParserErrorC => "LibraryWithoutParserError"
  end.

Section Exceptions.

(** [pyunitwizard.__github_issues_web__]: the package's [__init__.py] is
    not part of the sources at hand, so the constant is a parameter. *)
Variable github_issues_web : string.

(** The other importable modules, each with its string attributes. *)
Variable site_packages : gmap string (gmap string string).

(** [from module_name import name] *)
Definition import_from (module_name name : string) : outcome string :=
  if String.eqb module_name "pyunitwizard" then
    if String.eqb name "__github_issues_web__"
    then Return github_issues_web
    else Raise (ImportError module_name name)
  else
    match site_packages !! module_name with
    | None => Raise (ModuleNotFoundError module_name)
    | Some attributes =>
        match attributes !! name with
        | Some v => Return v
        | None => Raise (ImportError module_name name)
        end
    end.

(** [NoStandardsError.__init__(self)], called with the stack [callers]. *)
Definition NoStandardsError_init (callers : list FrameInfo) : outcome Exn :=
  web ← import_from "pyunitwizard" "__github_issues_web__";
  let all_stack_frames := inspect_stack 36 callers in
  caller_stack_frame ← getitem all_stack_frames 1;
  let caller_name := frame_item3 caller_stack_frame in
  let api_doc := "" in
  let message := NoStandardsError_message api_doc web in
  Return (NoStandardsError message).

(** [UnknownFormError.__init__(self)]: the import names the package
    [sabueso], and the f-string reads [method_name], which the function
    never assigns. *)
Definition UnknownFormError_init (callers : list FrameInfo) : outcome Exn :=
  web ← import_from "sabueso" "__github_issues_web__";
  let all_stack_frames := inspect_stack 87 callers in
  caller_stack_frame ← getitem all_stack_frames 1;
  let caller_name := frame_item3 caller_stack_frame in
  let api_doc := "" in
  method_name ← load_global "method_name";
  let message := UnknownFormError_message method_name api_doc web in
  Return (UnknownFormError message).

(** [LibraryNotFoundError.__init__(self, library)] *)
Definition LibraryNotFoundError_init (library : string) (callers : list FrameInfo)
  : outcome Exn :=
  web ← import_from "pyunitwizard" "__github_issues_web__";
  let all_stack_frames := inspect_stack 145 callers in
  caller_stack_frame ← getitem all_stack_frames 1;
  let caller_name := frame_item3 caller_stack_frame in
  let api_doc := "" in
  let message := LibraryNotFoundError_message library caller_name web in
  Return (LibraryNotFoundError message).

(** [LibraryWithoutParserError.__init__(self, library)] *)
Definition LibraryWithoutParserError_init (library : string) (callers : list FrameInfo)
  : outcome Exn :=
  web ← import_from "pyunitwizard" "__github_issues_web__";
  let all_stack_frames := inspect_stack 203 callers in
  caller_stack_frame ← getitem all_stack_frames 1;
  let caller_name := frame_item3 caller_stack_frame in
  let api_doc := "" in
  let message := LibraryWithoutParserError_message library caller_name web in
  Return (LibraryWithoutParserError message).

(** The call of the class [cls] on [args], made with the stack [callers], whose head is the
    frame of the function that makes the call. Python binds the arguments
    to the parameters of [__init__] first and raises [TypeError] when their
    number does not fit. The result is the new exception object, or the
    exception that escaped from the constructor. *)
Definition construct (cls : ExnClass) (args : list string) (callers : list FrameInfo)
  : outcome Exn :=
  match cls, args with
  | NoStandardsErrorC, [] => NoStandardsError_init callers
  | UnknownFormErrorC, [] => UnknownFormError_init callers
  | LibraryNotFoundErrorC, [library] => LibraryNotFoundError_init library callers
  | LibraryWithoutParserErrorC, [library] =>
      LibraryWithoutParserError_init library callers
  | _, _ => Raise (TypeError (class_name cls +:+ ".__init__") (length args))
  end.

(** [raise cls(...)] with the arguments [args] *)
Definition raise_new {A : Type} (cls : ExnClass) (args : list string)
    (callers : list FrameInfo) : outcome A :=
  match construct cls args callers with
  | Return e => Raise e
  | Raise e => Raise e
  end.

End Exceptions.

(** ** Values, collaborators and the trace of their calls *)

(** The Python values that reach [parse]: [None], integers, strings, and the
    objects of the quantity libraries, which the parser never looks into. *)
Inductive PyVal (Obj : Type) : Type :=
| PyNone
| PyInt (z : Z)
| PyText (s : string)
| PyObj (o : Obj).
Arguments PyNone {Obj}.
Arguments PyInt {Obj} z.
Arguments PyText {Obj} s.
Arguments PyObj {Obj} o.

(** [isinstance(v, str)] *)
Definition isinstance_str {Obj : Type} (v : PyVal Obj) : bool :=
  match v with
  | PyText _ => true
  | _ => false
  end.

(** A call that leaves the two modules. *)
Inductive Event (Obj : Type) : Type :=
| DigestParser (candidate : PyVal Obj)
| DigestToForm (candidate : PyVal Obj)
| LiteralEval (text : string)
| Translate (source target : string) (argument : PyVal Obj)
| Multiply (left_operand right_operand : PyVal Obj).
Arguments DigestParser {Obj} candidate.
Arguments DigestToForm {Obj} candidate.
Arguments LiteralEval {Obj} text.
Arguments Translate {Obj} source target argument.
Arguments Multiply {Obj} left_operand right_operand.

(** A run of parser code: the collaborator calls it made, in order, and how
    it ended. *)
Record Run (Obj A : Type) : Type := MkRun {
  trace : list (Event Obj);
  result : outcome A
}.
Arguments MkRun {Obj A} trace result.
Arguments trace {Obj A} r.
Arguments result {Obj A} r.

#[global] Instance Run_ret {Obj : Type} : MRet (Run Obj) :=
  fun A a => MkRun [] (Return a).
#[global] Instance Run_bind {Obj : Type} : MBind (Run Obj) := fun A B f m =>
  match result m with
  | Return a => MkRun (trace m ++ trace (f a)) (result (f a))
  | Raise e => MkRun (trace m) (Raise e)
  end.

(** A step that calls no collaborator. *)
Definition quiet {Obj A : Type} (r : outcome A) : Run Obj A := MkRun [] r.

(** A collaborator call: it is recorded, and its outcome is the step's. *)
Definition call {Obj A : Type} (ev : Event Obj) (r : outcome A) : Run Obj A :=
  MkRun [ev] r.

(** The frame of [parse] while it executes the [raise] at [line]. *)
Definition parse_frame (line : Z) : FrameInfo :=
  {| filename := "pyunitwizard/parse.py"; lineno := line; function := "parse" |}.

Section Parser.

Context {Obj : Type}.

Variable github_issues_web : string.
Variable site_packages : gmap string (gmap string string).

(** [digest_parser] and [digest_to_form] live in [_private], outside the
    sources at hand. Each answers a canonical form identifier, a string, or
    raises. *)
Variable digest_parser : PyVal Obj → outcome string.
Variable digest_to_form : PyVal Obj → outcome string.

(** [dict_translate_quantity], the translation table of [forms]: a
    dictionary of dictionaries of converters. *)
Variable dict_translate_quantity :
  gmap string (gmap string (PyVal Obj → outcome (PyVal Obj))).

(** [ast.literal_eval] *)
Variable literal_eval : string → outcome (PyVal Obj).

(** The [*] of Python on two values, as the quantity library defines it. *)
Variable py_mul : PyVal Obj → PyVal Obj → outcome (PyVal Obj).

(** [dict_translate_quantity[source][target]]: a missing key raises
    [KeyError]. *)
Definition converter (source target : string)
  : outcome (PyVal Obj → outcome (PyVal Obj)) :=
  match dict_translate_quantity !! source with
  | None => Raise (KeyError source)
  | Some row =>
      match row !! target with
      | None => Raise (KeyError target)
      | Some f => Return f
      end
  end.

(** [dict_translate_quantity[source][target](argument)] *)
Definition translate (source target : string) (argument : PyVal Obj)
  : Run Obj (PyVal Obj) :=
  f ← quiet (converter source target);
  call (Translate source target argument) (f argument).

(** [_parse_with_pint(string)]. In the product the left operand, the call
    of [ast.literal_eval], is evaluated before the right one. *)
Definition _parse_with_pint (string : string) : Run Obj (PyVal Obj) :=
  if is_non_scalar string then
    v ← call (LiteralEval (value_string string))
             (literal_eval (value_string string));
    u ← translate "string" "pint" (PyText (unit_string string));
    call (Multiply v u) (py_mul v u)
  else
    translate "string" "pint" (PyText string).

(** [parse(string, parser, to_form)], called with the stack [callers]. *)
Definition parse (callers : list FrameInfo) (string parser to_form : PyVal Obj)
  : Run Obj (PyVal Obj) :=
  match string with
  | PyText text =>
      parser ← call (DigestParser parser) (digest_parser parser);
      to_form ← call (DigestToForm to_form) (digest_to_form to_form);
      if String.eqb parser "pint" then
        if String.eqb to_form "pint" then
          _parse_with_pint text
        else if String.eqb to_form "openmm.unit" then
          pint_quantity ← _parse_with_pint text;
          translate "pint" "openmm.unit" pint_quantity
        else if String.eqb to_form "string" then
          pint_quantity ← _parse_with_pint text;
          translate "pint" "string" pint_quantity
        else if String.eqb to_form "unyt" then
          pint_quantity ← _parse_with_pint text;
          translate "pint" "unyt" pint_quantity
        else
          quiet (Raise (NotImplementedParsingError parser to_form))
      else if String.eqb parser "openmm.unit" then
        quiet (raise_new github_issues_web site_packages
                 LibraryWithoutParserErrorC ["openmm.unit"]
                 (parse_frame 78 :: callers))
      else if String.eqb parser "unyt" then
        quiet (raise_new github_issues_web site_packages
                 LibraryWithoutParserErrorC ["unyt"]
                 (parse_frame 80 :: callers))
      else
        quiet (Raise (NotImplementedParsingError parser to_form))
  | _ => quiet (Raise (BadCallError "string"))
  end.

End Parser.

(** ** Vocabulary for the statements about messages and the split *)

(** [sub in s]: the text [sub] occurs somewhere in [s]. *)
Fixpoint contains (sub s : string) : bool :=
  String.prefix sub s ||
  match s with
  | EmptyString => false
  | String _ s' => contains sub s'
  end.

(** The split falls right after the last [']'] of the string. *)
Definition splits_after_square_bracket (s : string) : Prop :=
  end_list s = PyStr.rfind "]" s + 1.

(** The call [UnknownFormError(args...)] made in the function [caller] builds
    an [UnknownFormError] whose message names both [candidate] and [caller]. *)
Definition names_candidate_and_caller
    (github_issues_web : string) (site_packages : gmap string (gmap string string))
    (args : list string) (callers : list FrameInfo)
    (candidate caller : string) : Prop :=
  ∃ message,
    construct github_issues_web site_packages UnknownFormErrorC args callers
      = Return (UnknownFormError message)
    ∧ contains candidate message = true
    ∧ contains caller message = true.

(** The last character of [s], if it has one. *)
Definition last_char (s : string) : option ascii :=
  match s with
  | EmptyString => None
  | String _ _ => String.get (String.length s - 1) s
  end.

(** [s] ends with a closing bracket of either kind. *)
Definition ends_with_closer (s : string) : bool :=
  match last_char s with
  | Some a => is_closer a
  | None => false
  end.

(** ** A small quantity library to run the parser on *)

Module Demo.

(** A literal sequence, or a quantity: magnitudes with a unit, held in the
    form of one library. *)
Inductive obj : Type :=
| Sequence (magnitudes : list Z)
| Quantity (form : string) (magnitudes : list Z) (unit_name : string).

Definition value : Type := PyVal obj.

(** Reads the one literal the examples use; the empty text is a syntax
    error, as it is for [ast.literal_eval]. *)
Definition literal_eval (text : string) : outcome value :=
  if String.eqb text "[1, 2, 3]" then Return (PyObj (Sequence [1; 2; 3]))
  else if String.eqb text "" then Raise (Raised "SyntaxError" "invalid syntax")
  else Raise (Raised "ValueError" "malformed node or string").

(** One unit of the named unit, or [10 nm] for the scalar example. *)
Definition string_to_pint (v : value) : outcome value :=
  match v with
  | PyText text =>
      if String.eqb text "10 nm" then Return (PyObj (Quantity "pint" [10] "nm"))
      else Return (PyObj (Quantity "pint" [1] text))
  | _ => Raise (Raised "TypeError" "not a string")
  end.

Definition pint_to (target : string) (v : value) : outcome value :=
  match v with
  | PyObj (Quantity _ magnitudes unit_name) =>
      Return (PyObj (Quantity target magnitudes unit_name))
  | _ => Raise (Raised "TypeError" "not a quantity")
  end.

Definition dict_translate_quantity : gmap string (gmap string (value → outcome value)) :=
  {[ "string" := {[ "pint" := string_to_pint ]};
     "pint" := {[ "openmm.unit" := pint_to "openmm.unit";
                  "string" := pint_to "string";
                  "unyt" := pint_to "unyt" ]} ]}.

Definition py_mul (a b : value) : outcome value :=
  match a, b with
  | PyObj (Sequence magnitudes), PyObj (Quantity form _ unit_name) =>
      Return (PyObj (Quantity form magnitudes unit_name))
  | _, _ => Raise (Raised "TypeError" "unsupported operand")
  end.

(** A digestion that takes [None] for the default, pint, and any string
    for itself. *)
Definition digest (candidate : value) : outcome string :=
  match candidate with
  | PyNone => Return "pint"
  | PyText name => Return name
  | _ => Raise (Raised "TypeError" "not a form")
  end.

Definition github_issues_web : string := "https://github.com/uibcdf/pyunitwizard/issues".

(** An installation without [sabueso], and one with it. *)
Definition site_packages : gmap string (gmap string string) := ∅.
Definition site_packages_with_sabueso : gmap string (gmap string string) :=
  {[ "sabueso" := {[ "__github_issues_web__" := "https://github.com/uibcdf/sabueso/issues" ]} ]}.

(** A script that calls into the package from the function [main]. *)
Definition callers : list FrameInfo :=
  [ {| filename := "script.py"; lineno := 7; function := "main" |};
    {| filename := "script.py"; lineno := 12; function := "<module>" |} ].

(** The stack at a [raise] inside a function of the package. *)
Definition raised_in (function_name : string) : list FrameInfo :=
  {| filename := "pyunitwizard/main.py"; lineno := 1; function := function_name |}
  :: callers.

Definition parse_with_pint : string → Run obj value :=
  _parse_with_pint dict_translate_quantity literal_eval py_mul.

Definition parse : value → value → value → Run obj value :=
  parse github_issues_web site_packages digest digest dict_translate_quantity
    literal_eval py_mul callers.

End Demo.

Example demo_sequence :
  Demo.parse (PyText "[1, 2, 3] kJ") PyNone PyNone
  = MkRun [DigestParser PyNone; DigestToForm PyNone; LiteralEval "[1, 2, 3]";
           Translate "string" "pint" (PyText " kJ");
           Multiply (PyObj (Demo.Sequence [1; 2; 3])) (PyObj (Demo.Quantity "pint" [1] " kJ"))]
          (Return (PyObj (Demo.Quantity "pint" [1; 2; 3] " kJ"))).
Proof. vm_compute. reflexivity. Qed.

(** With a reader that rejects the empty text, as [ast.literal_eval] does,
    a sequence without closing bracket gets past the split and fails in the
    reader. *)
Example demo_no_closer :
  Demo.parse_with_pint "[1, 2 kJ"
  = MkRun [LiteralEval ""] (Raise (Raised "SyntaxError" "invalid syntax")).
Proof. vm_compute. reflexivity. Qed.

Example demo_scalar :
  Demo.parse (PyText "10 nm") PyNone (PyText "string")
  = MkRun [DigestParser PyNone; DigestToForm (PyText "string");
           Translate "string" "pint" (PyText "10 nm");
           Translate "pint" "string" (PyObj (Demo.Quantity "pint" [10] "nm"))]
          (Return (PyObj (Demo.Quantity "string" [10] "nm"))).
Proof. vm_compute. reflexivity. Qed.

Example end_list_sequence : end_list "[1, 2, 3] kJ" = 9.
Proof. reflexivity. Qed.

Example end_list_tuple : end_list "(0.5, 1.5) nm/ps" = 10.
Proof. reflexivity. Qed.

Example end_list_no_closer : end_list "[1, 2 kJ" = 0.
Proof. reflexivity. Qed.

Example end_list_stray_paren : end_list "[1, 2, 3] kJ)" = 13.
Proof. reflexivity. Qed.

(** ** Facts about the string primitives *)

Lemma append_cons (a : ascii) (s t : string) :
  String a s +:+ t = String a (s +:+ t).
Proof. reflexivity. Qed.

Lemma take_drop (n : nat) (s : string) : PyStr.take n s +:+ PyStr.drop n s = s.
Proof.
  revert s. induction n as [|n IH]; intros s.
  - reflexivity.
  - destruct s as [|a s]; [reflexivity|].
    simpl PyStr.take. simpl PyStr.drop. rewrite append_cons. now rewrite IH.
Qed.

Lemma get_Some_lt (k : nat) (s : string) (a : ascii) :
  String.get k s = Some a → (k < String.length s)%nat.
Proof.
  revert k. induction s as [|b s IH]; intros k H; simpl in *.
  - destruct k; discriminate.
  - destruct k as [|k]; [lia|]. apply IH in H. lia.
Qed.

Lemma get_drop (n k : nat) (s : string) :
  String.get k (PyStr.drop n s) = String.get (n + k) s.
Proof.
  revert s. induction n as [|n IH]; intros s; [reflexivity|].
  destruct s as [|a s]; simpl.
  - now destruct k.
  - apply IH.
Qed.

Lemma slice_partition (s : string) (n : Z) :
  PyStr.slice_to s n +:+ PyStr.slice_from s n = s.
Proof. unfold PyStr.slice_to, PyStr.slice_from. apply take_drop. Qed.

Lemma bound_in_range (n len : Z) : 0 ≤ n ≤ len → PyStr.bound n len = n.
Proof. intros H. unfold PyStr.bound. destruct (Z.ltb_spec n 0); lia. Qed.

(** [rfind_from] either keeps [last], when the character is nowhere in the
    rest of the string, or answers the offset of its last occurrence. *)
Lemma rfind_from_spec (c : ascii) (s : string) (i last : Z) :
  (PyStr.rfind_from c s i last = last ∧ ∀ k, String.get k s ≠ Some c)
  ∨ (∃ k : nat, PyStr.rfind_from c s i last = i + Z.of_nat k
       ∧ String.get k s = Some c
       ∧ ∀ k', (k < k')%nat → String.get k' s ≠ Some c).
Proof.
  revert i last. induction s as [|a s IH]; intros i last.
  - left. split; [reflexivity|]. intros [|k]; discriminate.
  - simpl PyStr.rfind_from.
    destruct (IH (i + 1) (if Ascii.eqb a c then i else last)) as [[Hr Hno]|[k [Hr [Hk Hlast]]]].
    + destruct (Ascii.eqb_spec a c) as [->|Hne].
      * right. exists 0%nat. rewrite Hr. split; [lia|]. split; [reflexivity|].
        intros [|k'] Hlt; [lia|]. simpl. apply Hno.
      * left. split; [exact Hr|]. intros [|k]; simpl; [congruence|apply Hno].
    + right. exists (S k). rewrite Hr. split; [lia|]. split; [exact Hk|].
      intros [|k'] Hlt; [lia|]. simpl. apply Hlast. lia.
Qed.

(** What [str.rfind] promises for a one-character argument. *)
Lemma rfind_spec (c : ascii) (s : string) :
  (PyStr.rfind c s = -1 ∧ ∀ k, String.get k s ≠ Some c)
  ∨ (∃ k : nat, PyStr.rfind c s = Z.of_nat k
       ∧ String.get k s = Some c
       ∧ ∀ k', (k < k')%nat → String.get k' s ≠ Some c).
Proof.
  unfold PyStr.rfind.
  destruct (rfind_from_spec c s 0 (-1)) as [H|[k [Hr H]]]; [now left|].
  right. exists k. split; [lia|exact H].
Qed.

Lemma rfind_bounds (c : ascii) (s : string) : -1 ≤ PyStr.rfind c s < PyStr.len s.
Proof.
  unfold PyStr.len.
  destruct (rfind_spec c s) as [[-> _]|[k [-> [Hk _]]]]; [lia|].
  apply get_Some_lt in Hk. lia.
Qed.

Lemma rfind_none (c : ascii) (s : string) :
  (∀ k, String.get k s ≠ Some c) → PyStr.rfind c s = -1.
Proof.
  intros Hno. destruct (rfind_spec c s) as [[H _]|[k [_ [Hk _]]]]; [exact H|].
  now apply Hno in Hk.
Qed.

Lemma rfind_lower (c : ascii) (s : string) (k : nat) :
  String.get k s = Some c → Z.of_nat k ≤ PyStr.rfind c s.
Proof.
  intros Hk. destruct (rfind_spec c s) as [[_ Hno]|[k0 [-> [_ Hlast]]]].
  - now apply Hno in Hk.
  - destruct (Nat.le_gt_cases k k0) as [Hle|Hgt]; [lia|].
    now apply Hlast in Hgt.
Qed.

Lemma rfind_upper (c : ascii) (s : string) (i : nat) :
  (∀ k, (i < k)%nat → String.get k s ≠ Some c) → PyStr.rfind c s ≤ Z.of_nat i.
Proof.
  intros Hafter. destruct (rfind_spec c s) as [[-> _]|[k [-> [Hk _]]]]; [lia|].
  destruct (Nat.le_gt_cases k i) as [Hle|Hgt]; [lia|].
  now apply Hafter in Hk.
Qed.

Lemma rfind_last (c : ascii) (s : string) (i : nat) :
  String.get i s = Some c →
  (∀ k, (i < k)%nat → String.get k s ≠ Some c) →
  PyStr.rfind c s = Z.of_nat i.
Proof.
  intros Hi Hafter. apply Z.le_antisymm; [now apply rfind_upper|now apply rfind_lower].
Qed.

(** ** Facts about the split *)

Lemma is_closer_spec (a : ascii) :
  is_closer a = true ↔ a = ")"%char ∨ a = "]"%char.
Proof.
  unfold is_closer. rewrite orb_true_iff.
  split; (intros [H|H]; [left|right]); now apply Ascii.eqb_eq.
Qed.

Lemma no_closer_get (s : string) :
  no_closer s = true ↔ ∀ k a, String.get k s = Some a → is_closer a = false.
Proof.
  induction s as [|b s IH]; simpl.
  - split; [|reflexivity]. intros _ [|k] a; discriminate.
  - rewrite andb_true_iff, negb_true_iff, IH. split.
    + intros [Hb Hs] [|k] a Hk; [congruence|]. now apply (Hs k).
    + intros H. split; [now apply (H 0%nat)|]. intros k a Hk. now apply (H (S k)).
Qed.

(** [is_last_closer] says what its name says. *)
Lemma is_last_closer_spec (s : string) (i : nat) :
  is_last_closer s i = true ↔
  (∃ a, at_index s i a ∧ (a = ")"%char ∨ a = "]"%char))
  ∧ ∀ k a, (i < k)%nat → at_index s k a → a ≠ ")"%char ∧ a ≠ "]"%char.
Proof.
  unfold is_last_closer, at_index. split.
  - destruct (String.get i s) as [a|] eqn:Hi; [|discriminate].
    rewrite andb_true_iff, is_closer_spec, no_closer_get. intros [Ha Hafter].
    split; [now exists a|]. intros k b Hlt Hk.
    assert (is_closer b = false) as Hb.
    { apply (Hafter (k - S i)%nat). rewrite get_drop.
      now replace (S i + (k - S i))%nat with k by lia. }
    split; intros ->; discriminate.
  - intros [[a [Hi Ha]] Hafter]. rewrite Hi.
    rewrite andb_true_iff, is_closer_spec, no_closer_get. split; [exact Ha|].
    intros k b Hk. rewrite get_drop in Hk.
    destruct (Hafter (S i + k)%nat b ltac:(lia) Hk) as [H1 H2].
    destruct (is_closer b) eqn:Hb; [|reflexivity].
    apply is_closer_spec in Hb. tauto.
Qed.

Lemma end_list_bounds (s : string) : 0 ≤ end_list s ≤ PyStr.len s.
Proof.
  unfold end_list.
  pose proof (rfind_bounds ")" s). pose proof (rfind_bounds "]" s). lia.
Qed.

Lemma value_string_take (s : string) :
  value_string s = PyStr.take (Z.to_nat (end_list s)) s.
Proof.
  unfold value_string, PyStr.slice_to.
  now rewrite bound_in_range by apply end_list_bounds.
Qed.

Lemma unit_string_drop (s : string) :
  unit_string s = PyStr.drop (Z.to_nat (end_list s)) s.
Proof.
  unfold unit_string, PyStr.slice_from.
  now rewrite bound_in_range by apply end_list_bounds.
Qed.

Lemma end_list_last_closer (s : string) (i : nat) :
  is_last_closer s i = true → end_list s = Z.of_nat i + 1.
Proof.
  rewrite is_last_closer_spec. unfold at_index. intros [[a [Hi Ha]] Hafter].
  assert (∀ c, (c = ")"%char ∨ c = "]"%char) →
               ∀ k, (i < k)%nat → String.get k s ≠ Some c) as Hnone.
  { intros c Hc k Hlt Hk. destruct (Hafter k c Hlt Hk). destruct Hc; tauto. }
  pose proof (rfind_upper ")" s i (Hnone _ (or_introl eq_refl))) as Hp.
  pose proof (rfind_upper "]" s i (Hnone _ (or_intror eq_refl))) as Hb.
  unfold end_list. destruct Ha as [->| ->].
  - pose proof (rfind_lower _ _ _ Hi). lia.
  - pose proof (rfind_lower _ _ _ Hi). lia.
Qed.

Lemma end_list_no_closer_zero (s : string) : no_closer s = true → end_list s = 0.
Proof.
  rewrite no_closer_get. intros Hno. unfold end_list.
  rewrite !rfind_none; [reflexivity| |]; intros k Hk; now apply Hno in Hk.
Qed.

(** ** The split is a partition of the input *)

(** C10. For every string that starts with an opening bracket, the payload
    substring followed by the unit substring is the original string, and the
    split index lies between 0 and the length of the string, both included. *)
Theorem split_is_partition (s : string) :
  is_non_scalar s = true →
  value_string s +:+ unit_string s = s ∧ 0 ≤ end_list s ≤ PyStr.len s.
Proof.
  intros _. split.
  - apply slice_partition.
  - apply end_list_bounds.
Qed.

Lemma split_is_partition_witness :
  is_non_scalar "[1, 2, 3] kJ" = true
  ∧ (value_string "[1, 2, 3] kJ" +:+ unit_string "[1, 2, 3] kJ" = "[1, 2, 3] kJ"
     ∧ 0 ≤ end_list "[1, 2, 3] kJ" ≤ PyStr.len "[1, 2, 3] kJ").
Proof.
  split; [reflexivity|]. apply (split_is_partition "[1, 2, 3] kJ"). reflexivity.
Defined.

(** ** Which closing bracket is the boundary *)

(** C2, refuted as stated. The string ["[1, 2, 3] kJ)"] starts with a bracket
    and holds a [']'] at index 8 and a [')'] later, at index 12; the split
    does not fall after the [']'] but after the [')'], at 13, which leaves the
    whole string as payload and an empty unit string. *)
Lemma stray_paren_is_the_boundary :
  is_non_scalar "[1, 2, 3] kJ)" = true
  ∧ at_index "[1, 2, 3] kJ)" 8 "]"
  ∧ at_index "[1, 2, 3] kJ)" 12 ")"
  ∧ ¬ splits_after_square_bracket "[1, 2, 3] kJ)"
  ∧ end_list "[1, 2, 3] kJ)" = 13
  ∧ value_string "[1, 2, 3] kJ)" = "[1, 2, 3] kJ)"
  ∧ unit_string "[1, 2, 3] kJ)" = "".
Proof.
  repeat split; try reflexivity.
  unfold splits_after_square_bracket. vm_compute. discriminate.
Qed.

(** C2, amended. For every string that starts with a bracket and holds a
    [']'] and a later [')'], the split falls one past whichever of the last
    [')'] and the last [']'] comes later. It therefore never falls before the
    later [')'], which ends up inside the payload; when the last [')'] comes
    after the last [']'] the boundary is that [')'] and not the [']'], and
    the last [']'] is the boundary only when it comes after the last [')']. *)
Theorem later_closer_is_the_boundary (s : string) (i j : nat) :
  is_non_scalar s = true →
  at_index s i "]" → at_index s j ")" → (i < j)%nat →
  end_list s = Z.max (PyStr.rfind ")" s) (PyStr.rfind "]" s) + 1
  ∧ Z.of_nat i + 1 < end_list s
  ∧ Z.of_nat j + 1 ≤ end_list s
  ∧ (PyStr.rfind "]" s < PyStr.rfind ")" s →
     end_list s = PyStr.rfind ")" s + 1 ∧ ¬ splits_after_square_bracket s)
  ∧ (PyStr.rfind ")" s < PyStr.rfind "]" s → splits_after_square_bracket s).
Proof.
  unfold at_index, splits_after_square_bracket, end_list. intros _ Hi Hj Hlt.
  pose proof (rfind_lower _ _ _ Hi). pose proof (rfind_lower _ _ _ Hj).
  repeat split; lia.
Qed.

Lemma later_closer_is_the_boundary_witness :
  end_list "[1, 2, 3] kJ)" = Z.max (PyStr.rfind ")" "[1, 2, 3] kJ)") (PyStr.rfind "]" "[1, 2, 3] kJ)") + 1
  ∧ Z.of_nat 8 + 1 < end_list "[1, 2, 3] kJ)"
  ∧ Z.of_nat 12 + 1 ≤ end_list "[1, 2, 3] kJ)"
  ∧ (PyStr.rfind "]" "[1, 2, 3] kJ)" < PyStr.rfind ")" "[1, 2, 3] kJ)" →
     end_list "[1, 2, 3] kJ)" = PyStr.rfind ")" "[1, 2, 3] kJ)" + 1
     ∧ ¬ splits_after_square_bracket "[1, 2, 3] kJ)")
  ∧ (PyStr.rfind ")" "[1, 2, 3] kJ)" < PyStr.rfind "]" "[1, 2, 3] kJ)" →
     splits_after_square_bracket "[1, 2, 3] kJ)").
Proof.
  apply (later_closer_is_the_boundary "[1, 2, 3] kJ)" 8 12);
    [reflexivity | reflexivity | reflexivity | lia].
Defined.

(** ** Facts about occurrences in a message *)

Lemma prefix_append (sub post : string) : String.prefix sub (sub +:+ post) = true.
Proof.
  induction sub as [|a sub IH]; [now destruct post|].
  rewrite append_cons. simpl. destruct (ascii_dec a a); [exact IH|congruence].
Qed.

Lemma contains_prefix (sub s : string) :
  String.prefix sub s = true → contains sub s = true.
Proof. intros H. destruct s; cbn [contains]; now rewrite H. Qed.

(** [contains] misses no occurrence. *)
Lemma contains_complete (sub pre post : string) :
  contains sub (pre +:+ sub +:+ post) = true.
Proof.
  induction pre as [|a pre IH].
  - change ("" +:+ sub +:+ post) with (sub +:+ post).
    apply contains_prefix, prefix_append.
  - rewrite append_cons. cbn [contains]. rewrite IH. apply orb_true_r.
Qed.

Lemma not_contains (sub s : string) :
  contains sub s = false → ¬ ∃ pre post, s = pre +:+ sub +:+ post.
Proof.
  intros H (pre & post & ->). rewrite contains_complete in H. discriminate.
Qed.

Lemma contains_here (sub post : string) : contains sub (sub +:+ post) = true.
Proof. apply contains_prefix, prefix_append. Qed.

Lemma contains_append_r (sub s t : string) :
  contains sub t = true → contains sub (s +:+ t) = true.
Proof.
  intros H. induction s as [|a s IH]; [exact H|].
  rewrite append_cons. cbn [contains]. rewrite IH. apply orb_true_r.
Qed.

#[local] Ltac find_in_message :=
  repeat first [ apply contains_here | apply contains_append_r ].

(** ** The parser *)

Section ParserProperties.

Context {Obj : Type}.
Variable github_issues_web : string.
Variable site_packages : gmap string (gmap string string).
Variable digest_parser : PyVal Obj → outcome string.
Variable digest_to_form : PyVal Obj → outcome string.
Variable dict_translate_quantity :
  gmap string (gmap string (PyVal Obj → outcome (PyVal Obj))).
Variable literal_eval : string → outcome (PyVal Obj).
Variable py_mul : PyVal Obj → PyVal Obj → outcome (PyVal Obj).

#[local] Abbreviation pint_parse :=
  (_parse_with_pint dict_translate_quantity literal_eval py_mul).
#[local] Abbreviation run_parse :=
  (parse github_issues_web site_packages digest_parser digest_to_form
     dict_translate_quantity literal_eval py_mul).
#[local] Abbreviation convert := (translate dict_translate_quantity).

(** The product of the sequence branch, for a payload and a unit string. *)
Lemma parse_with_pint_non_scalar (s : string) :
  is_non_scalar s = true →
  pint_parse s =
    (v ← call (LiteralEval (value_string s)) (literal_eval (value_string s));
     u ← convert "string" "pint" (PyText (unit_string s));
     call (Multiply v u) (py_mul v u)).
Proof. intros H. unfold _parse_with_pint. now rewrite H. Qed.

(** C1. For every string that starts with ['['] or ['('], if index [i]
    holds the last closing bracket of the string, of either kind, then the
    split point is [i + 1], the payload is the string up to and including
    that bracket, the unit string is everything after it, and the result is
    the literal read from the payload multiplied by what the string-to-pint
    converter of the translation table makes of the unit string: the run
    reads the payload, looks the converter up under ['string'] and ['pint'],
    calls it on the unit string and multiplies, in that order, and ends with
    the first exception on the way or with the product. *)
Theorem split_after_last_closer (s : string) (i : nat) :
  is_non_scalar s = true →
  is_last_closer s i = true →
  let payload := PyStr.take (S i) s in
  let unit_text := PyStr.drop (S i) s in
  end_list s = Z.of_nat i + 1
  ∧ value_string s = payload
  ∧ unit_string s = unit_text
  ∧ pint_parse s =
      match literal_eval payload with
      | Raise e => MkRun [LiteralEval payload] (Raise e)
      | Return v =>
          match dict_translate_quantity !! "string" with
          | None => MkRun [LiteralEval payload] (Raise (KeyError "string"))
          | Some row =>
              match row !! "pint" with
              | None => MkRun [LiteralEval payload] (Raise (KeyError "pint"))
              | Some f =>
                  match f (PyText unit_text) with
                  | Raise e =>
                      MkRun [LiteralEval payload;
                             Translate "string" "pint" (PyText unit_text)]
                            (Raise e)
                  | Return u =>
                      MkRun [LiteralEval payload;
                             Translate "string" "pint" (PyText unit_text);
                             Multiply v u]
                            (py_mul v u)
                  end
              end
          end
      end.
Proof.
  intros Hns Hlast payload unit_text.
  pose proof (end_list_last_closer s i Hlast) as Hend.
  assert (Z.to_nat (end_list s) = S i) as Hnat by lia.
  assert (value_string s = payload) as Hv
    by (subst payload; now rewrite value_string_take, Hnat).
  assert (unit_string s = unit_text) as Hu
    by (subst unit_text; now rewrite unit_string_drop, Hnat).
  repeat split; try assumption.
  rewrite (parse_with_pint_non_scalar s Hns), Hv, Hu.
  unfold translate, converter, mbind, Run_bind, call, quiet. cbn [result trace].
  destruct (literal_eval payload) as [v|e]; [|reflexivity]. cbn [result trace].
  destruct (dict_translate_quantity !! "string") as [row|]; [|reflexivity].
  destruct (row !! "pint") as [f|]; [|reflexivity]. cbn [result trace].
  destruct (f (PyText unit_text)) as [u|e]; reflexivity.
Qed.

(** C6. For every string that starts with ['['] or ['('] and holds neither
    [')'] nor [']'], the split point is 0, the payload is empty and the
    unit string is the whole string. The split raises nothing: the run goes
    on to read the empty payload and to convert the whole string, and it
    returns whenever those collaborators do. *)
Theorem split_without_closer (s : string) :
  is_non_scalar s = true →
  no_closer s = true →
  end_list s = 0
  ∧ value_string s = ""
  ∧ unit_string s = s
  ∧ pint_parse s =
      (v ← call (LiteralEval "") (literal_eval "");
       u ← convert "string" "pint" (PyText s);
       call (Multiply v u) (py_mul v u))
  ∧ ∀ v f u r,
      literal_eval "" = Return v →
      converter dict_translate_quantity "string" "pint" = Return f →
      f (PyText s) = Return u →
      py_mul v u = Return r →
      pint_parse s =
        MkRun [LiteralEval ""; Translate "string" "pint" (PyText s); Multiply v u]
              (Return r).
Proof.
  intros Hns Hno. pose proof (end_list_no_closer_zero s Hno) as Hend.
  assert (value_string s = "") as Hv by now rewrite value_string_take, Hend.
  assert (unit_string s = s) as Hu by now rewrite unit_string_drop, Hend.
  assert (pint_parse s =
      (v ← call (LiteralEval "") (literal_eval "");
       u ← convert "string" "pint" (PyText s);
       call (Multiply v u) (py_mul v u))) as Hrun.
  { rewrite (parse_with_pint_non_scalar s Hns). now rewrite Hv, Hu. }
  repeat split; try assumption.
  intros v f u r Hlit Hconv Hf Hmul. rewrite Hrun.
  unfold translate, mbind, Run_bind, call, quiet. simpl.
  rewrite Hlit. simpl. rewrite Hconv. simpl. rewrite Hf. simpl.
  now rewrite Hmul.
Qed.

(** C4. For every value that is not a string, [parse] raises
    [BadCallError('string')] and has called neither digestion function nor
    any other collaborator: nothing is coerced. *)
Theorem non_string_is_a_bad_call
    (callers : list FrameInfo) (string parser to_form : PyVal Obj) :
  isinstance_str string = false →
  run_parse callers string parser to_form = MkRun [] (Raise (BadCallError "string")).
Proof. intros H. destruct string; try reflexivity. discriminate. Qed.

(** C3. For every string, when the parser digests to ['openmm.unit'] or to
    ['unyt'] and the target form digests at all, [parse] raises
    [LibraryWithoutParserError] with a message built for that library name
    and for the caller [parse], a message in which the name of the library
    occurs; the two digestions are the only collaborator calls, so nothing
    is parsed. *)
Theorem library_without_parser
    (callers : list FrameInfo) (text : string) (parser to_form : PyVal Obj)
    (library target : string) :
  library = "openmm.unit" ∨ library = "unyt" →
  digest_parser parser = Return library →
  digest_to_form to_form = Return target →
  run_parse callers (PyText text) parser to_form =
    MkRun [DigestParser parser; DigestToForm to_form]
      (Raise (LibraryWithoutParserError
                (LibraryWithoutParserError_message library "parse" github_issues_web)))
  ∧ contains library
      (LibraryWithoutParserError_message library "parse" github_issues_web) = true
  ∧ contains "parse"
      (LibraryWithoutParserError_message library "parse" github_issues_web) = true.
Proof.
  intros Hlib Hp Ht. split.
  - unfold parse, mbind, Run_bind, call. simpl.
    rewrite Hp. simpl. rewrite Ht. simpl.
    destruct Hlib as [-> | ->]; reflexivity.
  - unfold LibraryWithoutParserError_message. split; find_in_message.
Qed.

(** C5. For every string, when both identifiers digest and no branch of
    [parse] is written for the pair (the parser is ['pint'] and the target
    is none of ['pint'], ['openmm.unit'], ['string'], ['unyt'], or the
    parser is none of ['pint'], ['openmm.unit'], ['unyt']), [parse] raises
    [NotImplementedParsingError] with the digested parser and target, and
    so returns no value. *)
Theorem no_branch_is_not_implemented
    (callers : list FrameInfo) (text : string) (parser to_form : PyVal Obj)
    (source target : string) :
  digest_parser parser = Return source →
  digest_to_form to_form = Return target →
  (source = "pint" ∧ target ≠ "pint" ∧ target ≠ "openmm.unit"
     ∧ target ≠ "string" ∧ target ≠ "unyt")
  ∨ (source ≠ "pint" ∧ source ≠ "openmm.unit" ∧ source ≠ "unyt") →
  run_parse callers (PyText text) parser to_form =
    MkRun [DigestParser parser; DigestToForm to_form]
      (Raise (NotImplementedParsingError source target)).
Proof.
  intros Hp Ht Hpair. unfold parse, mbind, Run_bind, call. simpl.
  rewrite Hp. simpl. rewrite Ht. simpl.
  destruct Hpair as [(-> & H1 & H2 & H3 & H4) | (H1 & H2 & H3)].
  - simpl. apply String.eqb_neq in H1, H2, H3, H4. now rewrite H1, H2, H3, H4.
  - apply String.eqb_neq in H1, H2, H3. now rewrite H1, H2, H3.
Qed.

(** C7. For every string, when the parser digests to ['pint']: if the
    target digests to ['pint'], the run of [parse] is the two digestions
    followed by the run of the pint parse, with the same outcome; if it
    digests to ['openmm.unit'], ['string'] or ['unyt'], the pint parse runs
    after the two digestions and, when it returns a quantity, the converter
    that the translation table holds under ['pint'] and that target is
    called on this quantity, and its outcome is the outcome of [parse]. An
    exception of the pint parse, or a missing key of the table, ends the
    run instead. *)
Theorem pint_parser_routes
    (callers : list FrameInfo) (text : string) (parser to_form : PyVal Obj)
    (target : string) :
  digest_parser parser = Return "pint" →
  digest_to_form to_form = Return target →
  let digestions := [DigestParser parser; DigestToForm to_form] in
  let native := pint_parse text in
  let ran := run_parse callers (PyText text) parser to_form in
  (target = "pint" →
     ran = MkRun (digestions ++ trace native) (result native))
  ∧ (target = "openmm.unit" ∨ target = "string" ∨ target = "unyt" →
     ran =
       match result native with
       | Raise e => MkRun (digestions ++ trace native) (Raise e)
       | Return pint_quantity =>
           match dict_translate_quantity !! "pint" with
           | None => MkRun (digestions ++ trace native) (Raise (KeyError "pint"))
           | Some row =>
               match row !! target with
               | None => MkRun (digestions ++ trace native) (Raise (KeyError target))
               | Some f =>
                   MkRun (digestions ++ trace native
                            ++ [Translate "pint" target pint_quantity])
                         (f pint_quantity)
               end
           end
       end).
Proof.
  intros Hp Ht digestions native ran. subst digestions native ran.
  unfold parse. unfold mbind at 1 2, Run_bind at 1 2, call at 1 2.
  cbn [result trace]. rewrite Hp. cbn [result trace]. rewrite Ht. cbn [result trace].
  destruct (pint_parse text) as [tr r]. split.
  - intros ->. reflexivity.
  - intros Htarget.
    assert (∀ name, name = target →
      (pint_quantity ← MkRun tr r; convert "pint" name pint_quantity) =
        match r with
        | Raise e => MkRun tr (Raise e)
        | Return pint_quantity =>
            match dict_translate_quantity !! "pint" with
            | None => MkRun tr (Raise (KeyError "pint"))
            | Some row =>
                match row !! target with
                | None => MkRun tr (Raise (KeyError target))
                | Some f =>
                    MkRun (tr ++ [Translate "pint" target pint_quantity])
                          (f pint_quantity)
                end
            end
        end) as Hrouted.
    { intros name ->. unfold translate, converter, mbind, Run_bind, call, quiet.
      cbn [result trace]. destruct r as [q|e]; [|reflexivity].
      destruct (dict_translate_quantity !! "pint") as [row|];
        [|now rewrite app_nil_r].
      destruct (row !! target) as [f|]; [reflexivity|now rewrite app_nil_r]. }
    destruct Htarget as [-> | [-> | ->]]; cbn [String.eqb Ascii.eqb Bool.eqb];
      rewrite (Hrouted _ eq_refl); cbn [result trace];
      destruct r as [q|e]; try reflexivity;
      destruct (dict_translate_quantity !! "pint") as [row|]; try reflexivity;
      match goal with |- context [row !! ?t] => destruct (row !! t) end;
      reflexivity.
Qed.

End ParserProperties.

Lemma split_after_last_closer_witness :
  is_non_scalar "[1, 2, 3] kJ" = true
  ∧ is_last_closer "[1, 2, 3] kJ" 8 = true
  ∧ end_list "[1, 2, 3] kJ" = Z.of_nat 8 + 1
  ∧ value_string "[1, 2, 3] kJ" = "[1, 2, 3]"
  ∧ unit_string "[1, 2, 3] kJ" = " kJ"
  ∧ Demo.parse_with_pint "[1, 2, 3] kJ" =
      MkRun [LiteralEval "[1, 2, 3]";
             Translate "string" "pint" (PyText " kJ");
             Multiply (PyObj (Demo.Sequence [1; 2; 3]))
                      (PyObj (Demo.Quantity "pint" [1] " kJ"))]
            (Return (PyObj (Demo.Quantity "pint" [1; 2; 3] " kJ"))).
Proof.
  split; [reflexivity|]. split; [reflexivity|].
  exact (split_after_last_closer Demo.dict_translate_quantity
           Demo.literal_eval Demo.py_mul "[1, 2, 3] kJ" 8 eq_refl eq_refl).
Defined.

Lemma split_without_closer_witness :
  is_non_scalar "[1, 2 kJ" = true
  ∧ no_closer "[1, 2 kJ" = true
  ∧ end_list "[1, 2 kJ" = 0
  ∧ value_string "[1, 2 kJ" = ""
  ∧ unit_string "[1, 2 kJ" = "[1, 2 kJ".
Proof.
  split; [reflexivity|]. split; [reflexivity|].
  pose proof (split_without_closer Demo.dict_translate_quantity
                Demo.literal_eval Demo.py_mul "[1, 2 kJ" eq_refl eq_refl)
    as (H1 & H2 & H3 & _).
  exact (conj H1 (conj H2 H3)).
Defined.

Lemma non_string_is_a_bad_call_witness :
  isinstance_str (PyInt 123 : Demo.value) = false
  ∧ Demo.parse (PyInt 123) PyNone PyNone = MkRun [] (Raise (BadCallError "string")).
Proof.
  split; [reflexivity|].
  apply (non_string_is_a_bad_call Demo.github_issues_web Demo.site_packages
           Demo.digest Demo.digest Demo.dict_translate_quantity Demo.literal_eval
           Demo.py_mul Demo.callers (PyInt 123) PyNone PyNone).
  reflexivity.
Defined.

Lemma library_without_parser_witness :
  Demo.digest (PyText "unyt") = Return "unyt"
  ∧ Demo.digest (PyText "string") = Return "string"
  ∧ Demo.parse (PyText "[1, 2, 3] kJ") (PyText "unyt") (PyText "string") =
      MkRun [DigestParser (PyText "unyt"); DigestToForm (PyText "string")]
        (Raise (LibraryWithoutParserError
                  (LibraryWithoutParserError_message "unyt" "parse" Demo.github_issues_web)))
  ∧ contains "unyt"
      (LibraryWithoutParserError_message "unyt" "parse" Demo.github_issues_web) = true
  ∧ contains "parse"
      (LibraryWithoutParserError_message "unyt" "parse" Demo.github_issues_web) = true.
Proof.
  split; [reflexivity|]. split; [reflexivity|].
  apply (library_without_parser Demo.github_issues_web Demo.site_packages
           Demo.digest Demo.digest Demo.dict_translate_quantity Demo.literal_eval
           Demo.py_mul Demo.callers "[1, 2, 3] kJ" (PyText "unyt") (PyText "string")
           "unyt" "string");
    [right; reflexivity | reflexivity | reflexivity].
Defined.

Lemma no_branch_is_not_implemented_witness :
  Demo.digest (PyText "astropy") = Return "astropy"
  ∧ Demo.parse (PyText "10 nm") (PyText "pint") (PyText "astropy") =
      MkRun [DigestParser (PyText "pint"); DigestToForm (PyText "astropy")]
        (Raise (NotImplementedParsingError "pint" "astropy")).
Proof.
  split; [reflexivity|].
  apply (no_branch_is_not_implemented Demo.github_issues_web Demo.site_packages
           Demo.digest Demo.digest Demo.dict_translate_quantity Demo.literal_eval
           Demo.py_mul Demo.callers "10 nm" (PyText "pint") (PyText "astropy")
           "pint" "astropy");
    [reflexivity | reflexivity |].
  left. repeat split; discriminate.
Defined.

Lemma pint_parser_routes_witness :
  Demo.digest (PyText "pint") = Return "pint"
  ∧ Demo.digest (PyText "unyt") = Return "unyt"
  ∧ Demo.parse (PyText "[1, 2, 3] kJ") (PyText "pint") (PyText "unyt") =
      MkRun [DigestParser (PyText "pint"); DigestToForm (PyText "unyt");
             LiteralEval "[1, 2, 3]";
             Translate "string" "pint" (PyText " kJ");
             Multiply (PyObj (Demo.Sequence [1; 2; 3]))
                      (PyObj (Demo.Quantity "pint" [1] " kJ"));
             Translate "pint" "unyt" (PyObj (Demo.Quantity "pint" [1; 2; 3] " kJ"))]
            (Return (PyObj (Demo.Quantity "unyt" [1; 2; 3] " kJ"))).
Proof.
  split; [reflexivity|]. split; [reflexivity|].
  exact (proj2 (pint_parser_routes Demo.github_issues_web Demo.site_packages
                  Demo.digest Demo.digest Demo.dict_translate_quantity
                  Demo.literal_eval Demo.py_mul Demo.callers "[1, 2, 3] kJ"
                  (PyText "pint") (PyText "unyt") "unyt" eq_refl eq_refl)
               (or_intror (or_intror eq_refl))).
Defined.

(** ** The exception classes *)

Section ExceptionProperties.

Variable github_issues_web : string.
Variable site_packages : gmap string (gmap string string).

#[local] Abbreviation build := (construct github_issues_web site_packages).

(** The message of [NoStandardsError] is the same whoever raises it. *)
Lemma NoStandardsError_ignores_its_caller (caller : FrameInfo) (outer : list FrameInfo) :
  build NoStandardsErrorC [] (caller :: outer)
  = Return (NoStandardsError (NoStandardsError_message "" github_issues_web)).
Proof. reflexivity. Qed.

(** [UnknownFormError()] never yields an exception object: the import or
    the read of [method_name] raises first. *)
Lemma UnknownFormError_is_never_built (callers : list FrameInfo) (e : Exn) :
  build UnknownFormErrorC [] callers ≠ Return e.
Proof.
  unfold construct, UnknownFormError_init, import_from. simpl.
  destruct (site_packages !! "sabueso") as [attributes|]; [|discriminate].
  destruct (attributes !! "__github_issues_web__"); [|discriminate].
  simpl. destruct callers; discriminate.
Qed.

(** The messages of the two library errors do name their caller, the
    library and the issues board. *)
Lemma LibraryNotFoundError_names_its_caller
    (library : string) (caller : FrameInfo) (outer : list FrameInfo) :
  build LibraryNotFoundErrorC [library] (caller :: outer)
  = Return (LibraryNotFoundError
              (LibraryNotFoundError_message library (function caller) github_issues_web)).
Proof. reflexivity. Qed.

Lemma LibraryWithoutParserError_names_its_caller
    (library : string) (caller : FrameInfo) (outer : list FrameInfo) :
  build LibraryWithoutParserErrorC [library] (caller :: outer)
  = Return (LibraryWithoutParserError
              (LibraryWithoutParserError_message library (function caller) github_issues_web)).
Proof. reflexivity. Qed.

(** C8, amended. The constructor of [UnknownFormError] takes no argument:
    whatever candidate a digestion function has rejected, handing it to the
    constructor, alone or with more arguments, is a [TypeError], so the
    exception has no way to carry the offending value. *)
Theorem UnknownFormError_takes_no_candidate
    (candidate : string) (more : list string) (callers : list FrameInfo) :
  build UnknownFormErrorC (candidate :: more) callers
  = Raise (TypeError "UnknownFormError.__init__" (S (length more))).
Proof. reflexivity. Qed.

End ExceptionProperties.

(** C8, refuted as stated. A digestion function that rejects the candidate
    ["openff"] gets no [UnknownFormError] whose message names the candidate
    and the caller: not from the call without arguments, with or without
    the package [sabueso] installed, and not from a call that passes the
    candidate. Even with the caller's name in the slot of the method name,
    the text of the message would not hold the candidate. *)
Lemma unknown_form_message_lacks_the_candidate :
  ¬ names_candidate_and_caller Demo.github_issues_web Demo.site_packages
      [] (Demo.raised_in "digest_parser") "openff" "digest_parser"
  ∧ ¬ names_candidate_and_caller Demo.github_issues_web Demo.site_packages_with_sabueso
      [] (Demo.raised_in "digest_parser") "openff" "digest_parser"
  ∧ ¬ names_candidate_and_caller Demo.github_issues_web Demo.site_packages_with_sabueso
      ["openff"] (Demo.raised_in "digest_parser") "openff" "digest_parser"
  ∧ contains "openff"
      (UnknownFormError_message "digest_parser" "" "https://github.com/uibcdf/sabueso/issues")
    = false.
Proof.
  repeat split; try (intros (message & H & _); vm_compute in H; discriminate).
Qed.

(** C9, evaluated where it fails. Raised in a function named [standardize],
    [NoStandardsError()] gets a message in which the name of that function
    does not occur; [UnknownFormError()] raised in [digest_to_form] gets no
    message at all, since its constructor raises [ModuleNotFoundError] where
    [sabueso] is not installed and [NameError] for [method_name] where it
    is. *)
Theorem caller_name_is_missing :
  construct Demo.github_issues_web Demo.site_packages
    NoStandardsErrorC [] (Demo.raised_in "standardize")
  = Return (NoStandardsError
      ("The input quantity method has no standard. "
       +:+ "A complete set of standard units need to be defined. "
       +:+ "Check  for more information. "
       +:+ "If you still need help, open a new issue in "
       +:+ "https://github.com/uibcdf/pyunitwizard/issues."))
  ∧ contains "standardize"
      (NoStandardsError_message "" Demo.github_issues_web) = false
  ∧ construct Demo.github_issues_web Demo.site_packages
      UnknownFormErrorC [] (Demo.raised_in "digest_to_form")
    = Raise (ModuleNotFoundError "sabueso")
  ∧ construct Demo.github_issues_web Demo.site_packages_with_sabueso
      UnknownFormErrorC [] (Demo.raised_in "digest_to_form")
    = Raise (NameError "method_name").
Proof. repeat split; vm_compute; reflexivity. Qed.

(** ** More about the string primitives *)

Lemma length_take (n : nat) (s : string) :
  String.length (PyStr.take n s) = Nat.min n (String.length s).
Proof.
  revert s. induction n as [|n IH]; intros [|a s]; simpl; try reflexivity.
  now rewrite IH.
Qed.

Lemma length_drop (n : nat) (s : string) :
  String.length (PyStr.drop n s) = (String.length s - n)%nat.
Proof.
  revert s. induction n as [|n IH]; intros [|a s]; simpl; try reflexivity.
  apply IH.
Qed.

Lemma length_app (p u : string) :
  String.length (p +:+ u) = (String.length p + String.length u)%nat.
Proof.
  induction p as [|a p IH]; [reflexivity|].
  rewrite append_cons. simpl. now rewrite IH.
Qed.

Lemma get_take (n k : nat) (s : string) :
  (k < n)%nat → String.get k (PyStr.take n s) = String.get k s.
Proof.
  revert k s. induction n as [|n IH]; intros k s Hlt; [lia|].
  destruct s as [|a s]; [reflexivity|]. destruct k as [|k]; [reflexivity|].
  simpl. apply IH. lia.
Qed.

Lemma get_beyond (k : nat) (s : string) :
  (String.length s ≤ k)%nat → String.get k s = None.
Proof.
  intros Hle. destruct (String.get k s) as [a|] eqn:Hk; [|reflexivity].
  apply get_Some_lt in Hk. lia.
Qed.

Lemma get_app_l (k : nat) (p u : string) :
  (k < String.length p)%nat → String.get k (p +:+ u) = String.get k p.
Proof.
  revert k. induction p as [|a p IH]; intros k Hlt; simpl in Hlt; [lia|].
  rewrite append_cons. destruct k as [|k]; [reflexivity|]. simpl. apply IH. lia.
Qed.

Lemma get_app_r (k : nat) (p u : string) :
  String.get (String.length p + k) (p +:+ u) = String.get k u.
Proof.
  induction p as [|a p IH]; [reflexivity|]. rewrite append_cons. exact IH.
Qed.

Lemma take_app_length (p u : string) : PyStr.take (String.length p) (p +:+ u) = p.
Proof.
  induction p as [|a p IH]; [reflexivity|].
  rewrite append_cons. simpl. now rewrite IH.
Qed.

Lemma drop_app_length (p u : string) : PyStr.drop (String.length p) (p +:+ u) = u.
Proof.
  induction p as [|a p IH]; [reflexivity|]. rewrite append_cons. exact IH.
Qed.

Lemma take_ge_length (n : nat) (s : string) :
  (String.length s ≤ n)%nat → PyStr.take n s = s.
Proof.
  revert s. induction n as [|n IH]; intros [|a s] H; simpl in *;
    try reflexivity; try lia.
  f_equal. apply IH. lia.
Qed.

Lemma drop_ge_length (n : nat) (s : string) :
  (String.length s ≤ n)%nat → PyStr.drop n s = "".
Proof.
  revert s. induction n as [|n IH]; intros [|a s] H; simpl in *;
    try reflexivity; try lia.
  apply IH. lia.
Qed.

(** ** More about the split *)

Lemma closer_below_end_list (s : string) (k : nat) (a : ascii) :
  String.get k s = Some a → is_closer a = true → Z.of_nat k + 1 ≤ end_list s.
Proof.
  intros Hk Ha. apply is_closer_spec in Ha. unfold end_list.
  destruct Ha as [-> | ->]; pose proof (rfind_lower _ _ _ Hk); lia.
Qed.

Lemma end_list_zero_no_closer (s : string) : end_list s = 0 → no_closer s = true.
Proof.
  intros H0. apply no_closer_get. intros k a Hk.
  destruct (is_closer a) eqn:Ha; [|reflexivity].
  pose proof (closer_below_end_list s k a Hk Ha). lia.
Qed.

Lemma end_list_pos_last_closer (s : string) :
  0 < end_list s → is_last_closer s (Z.to_nat (end_list s - 1)) = true.
Proof.
  intros Hpos. apply is_last_closer_spec. unfold at_index. split.
  - unfold end_list in *.
    destruct (Z.max_spec (PyStr.rfind ")" s + 1) (PyStr.rfind "]" s + 1))
      as [[_ Hm]|[_ Hm]]; rewrite Hm in *.
    + destruct (rfind_spec "]" s) as [[Hr _]|[k [Hr [Hk _]]]]; [lia|].
      exists "]"%char. split; [|now right].
      now replace (Z.to_nat (PyStr.rfind "]" s + 1 - 1)) with k by lia.
    + destruct (rfind_spec ")" s) as [[Hr _]|[k [Hr [Hk _]]]]; [lia|].
      exists ")"%char. split; [|now left].
      now replace (Z.to_nat (PyStr.rfind ")" s + 1 - 1)) with k by lia.
  - intros k a Hlt Hk.
    destruct (is_closer a) eqn:Ha.
    + pose proof (closer_below_end_list s k a Hk Ha). lia.
    + split; intros ->; discriminate.
Qed.

Lemma no_closer_false_end_list_pos (s : string) :
  no_closer s = false → 0 < end_list s.
Proof.
  intros Hno. pose proof (end_list_bounds s).
  destruct (Z.eq_dec (end_list s) 0) as [H0|]; [|lia].
  apply end_list_zero_no_closer in H0. congruence.
Qed.

Lemma startswith_char (c : ascii) (s : string) :
  PyStr.startswith s (String c "") = true ↔ ∃ rest, s = String c rest.
Proof.
  unfold PyStr.startswith. destruct s as [|a s]; cbn [String.prefix].
  - split; [discriminate|]. intros [rest H]. discriminate.
  - destruct (ascii_dec c a) as [->|Hne].
    + split; [now exists s|]. intros _. now destruct s.
    + split; [discriminate|]. intros [rest H]. congruence.
Qed.

Lemma is_non_scalar_spec (s : string) :
  is_non_scalar s = true ↔ ∃ rest, s = String "[" rest ∨ s = String "(" rest.
Proof.
  unfold is_non_scalar. rewrite orb_true_iff, !startswith_char. split.
  - intros [[rest H]|[rest H]]; exists rest; tauto.
  - intros [rest [H|H]]; [left|right]; now exists rest.
Qed.

Lemma is_non_scalar_take (n : nat) (s : string) :
  is_non_scalar s = true → is_non_scalar (PyStr.take (S n) s) = true.
Proof.
  rewrite !is_non_scalar_spec. intros [rest [-> | ->]]; exists (PyStr.take n rest);
    [left|right]; reflexivity.
Qed.

Lemma last_char_get (s : string) :
  s ≠ "" → last_char s = String.get (String.length s - 1) s.
Proof. now destruct s. Qed.

Lemma end_list_to_nat (s : string) :
  0 < end_list s → Z.to_nat (end_list s) = S (Z.to_nat (end_list s - 1)).
Proof. lia. Qed.

(** X1. Whatever the string, the unit substring that the split cuts off
    holds neither [')'] nor [']']. *)
Theorem unit_string_has_no_closer (s : string) : no_closer (unit_string s) = true.
Proof.
  apply no_closer_get. intros k a Hk. rewrite unit_string_drop, get_drop in Hk.
  destruct (is_closer a) eqn:Ha; [|reflexivity].
  pose proof (closer_below_end_list s _ a Hk Ha). pose proof (end_list_bounds s). lia.
Qed.

(** X2. For a string that starts with an opening bracket and holds a closing
    bracket somewhere, the payload handed to [ast.literal_eval] starts with
    that opening bracket (its first character is the first character of the
    string, ['['] or ['(']), ends with a closing bracket, and is [end_list]
    characters long. *)
Theorem payload_is_bracketed (s : string) :
  is_non_scalar s = true →
  no_closer s = false →
  String.get 0 (value_string s) = String.get 0 s
  ∧ is_non_scalar (value_string s) = true
  ∧ ends_with_closer (value_string s) = true
  ∧ PyStr.len (value_string s) = end_list s.
Proof.
  intros Hns Hno. pose proof (no_closer_false_end_list_pos s Hno) as Hpos.
  pose proof (end_list_bounds s) as Hb. unfold PyStr.len in *.
  pose proof (end_list_pos_last_closer s Hpos) as Hlast.
  rewrite value_string_take, (end_list_to_nat s Hpos).
  set (i := Z.to_nat (end_list s - 1)) in *.
  assert (String.length (PyStr.take (S i) s) = S i) as Hlen
    by (rewrite length_take; lia).
  split; [apply get_take; lia|].
  split; [now apply is_non_scalar_take|]. split; [|lia].
  unfold ends_with_closer. rewrite last_char_get.
  - rewrite Hlen. replace (S i - 1)%nat with i by lia.
    rewrite get_take by lia. unfold is_last_closer in Hlast.
    destruct (String.get i s); [|discriminate].
    now apply andb_true_iff in Hlast.
  - intros E. rewrite E in Hlen. discriminate.
Qed.

Lemma payload_is_bracketed_witness :
  is_non_scalar "(0.5, 1.5) nm/ps" = true
  ∧ no_closer "(0.5, 1.5) nm/ps" = false
  ∧ String.get 0 (value_string "(0.5, 1.5) nm/ps") = String.get 0 "(0.5, 1.5) nm/ps"
  ∧ is_non_scalar (value_string "(0.5, 1.5) nm/ps") = true
  ∧ ends_with_closer (value_string "(0.5, 1.5) nm/ps") = true
  ∧ PyStr.len (value_string "(0.5, 1.5) nm/ps") = end_list "(0.5, 1.5) nm/ps".
Proof.
  split; [reflexivity|]. split; [reflexivity|].
  apply (payload_is_bracketed "(0.5, 1.5) nm/ps"); reflexivity.
Defined.

(** X3. Splitting the payload again changes nothing: the payload of the
    payload is the payload, with the same split point and an empty unit
    string. *)
Theorem split_is_idempotent (s : string) :
  end_list (value_string s) = end_list s
  ∧ value_string (value_string s) = value_string s
  ∧ unit_string (value_string s) = "".
Proof.
  pose proof (end_list_bounds s) as Hb. unfold PyStr.len in Hb.
  destruct (Z.eq_dec (end_list s) 0) as [H0|Hne].
  - assert (value_string s = "") as -> by now rewrite value_string_take, H0.
    rewrite H0. repeat split.
  - assert (0 < end_list s) as Hpos by lia.
    pose proof (end_list_pos_last_closer s Hpos) as Hlast.
    remember (value_string s) as v eqn:Hv.
    rewrite value_string_take, (end_list_to_nat s Hpos) in Hv.
    set (i := Z.to_nat (end_list s - 1)) in *.
    assert (String.length v = S i) as Hlen by (subst v; rewrite length_take; lia).
    assert (is_last_closer v i = true) as Hv_last.
    { apply is_last_closer_spec in Hlast. destruct Hlast as [[a [Hi Ha]] _].
      apply is_last_closer_spec. unfold at_index in *. split.
      - exists a. split; [|exact Ha]. subst v. now rewrite get_take by lia.
      - intros k b Hlt Hk. rewrite get_beyond in Hk by lia. discriminate. }
    pose proof (end_list_last_closer v i Hv_last) as Hend.
    assert (Z.to_nat (end_list v) = S i) as Hnat by lia.
    split; [lia|]. split.
    + rewrite value_string_take, Hnat. apply take_ge_length. lia.
    + rewrite unit_string_drop, Hnat. apply drop_ge_length. lia.
Qed.

(** X4. The split undoes a concatenation: when a payload that starts with
    an opening bracket and ends with a closing bracket is followed by a unit
    text without closing brackets, the whole text takes the sequence branch
    and is split back into exactly that payload and that unit text. *)
Theorem split_of_payload_and_unit (p u : string) :
  is_non_scalar p = true →
  ends_with_closer p = true →
  no_closer u = true →
  is_non_scalar (p +:+ u) = true
  ∧ end_list (p +:+ u) = PyStr.len p
  ∧ value_string (p +:+ u) = p
  ∧ unit_string (p +:+ u) = u.
Proof.
  intros Hns Hend Hno. unfold PyStr.len.
  assert (p ≠ "") as Hp by (intros ->; discriminate).
  assert (0 < String.length p)%nat as Hlen by (destruct p; simpl; [congruence|lia]).
  assert (is_last_closer (p +:+ u) (String.length p - 1) = true) as Hlast.
  { apply is_last_closer_spec. unfold at_index. split.
    - unfold ends_with_closer in Hend. rewrite (last_char_get p Hp) in Hend.
      destruct (String.get (String.length p - 1) p) as [a|] eqn:Ha; [|discriminate].
      exists a. split; [|now apply is_closer_spec].
      rewrite get_app_l by lia. exact Ha.
    - intros k a Hlt Hk.
      replace k with (String.length p + (k - String.length p))%nat in Hk by lia.
      rewrite get_app_r in Hk.
      pose proof (proj1 (no_closer_get u) Hno _ _ Hk) as Ha.
      split; intros ->; discriminate. }
  pose proof (end_list_last_closer _ _ Hlast) as He.
  assert (Z.to_nat (end_list (p +:+ u)) = String.length p) as Hnat by lia.
  split.
  - apply is_non_scalar_spec in Hns. apply is_non_scalar_spec.
    destruct Hns as [rest [-> | ->]]; exists (rest +:+ u); [left|right]; reflexivity.
  - split; [lia|]. split.
    + rewrite value_string_take, Hnat. apply take_app_length.
    + rewrite unit_string_drop, Hnat. apply drop_app_length.
Qed.

Lemma split_of_payload_and_unit_witness :
  is_non_scalar ("[1, 2, 3]" +:+ " kJ/mol") = true
  ∧ end_list ("[1, 2, 3]" +:+ " kJ/mol") = PyStr.len "[1, 2, 3]"
  ∧ value_string ("[1, 2, 3]" +:+ " kJ/mol") = "[1, 2, 3]"
  ∧ unit_string ("[1, 2, 3]" +:+ " kJ/mol") = " kJ/mol".
Proof.
  apply (split_of_payload_and_unit "[1, 2, 3]" " kJ/mol"); reflexivity.
Defined.

(** X5. A closing bracket inside the unit text drags the split into it: if
    the text after a payload [p] holds a [')'] or a [']'] at index [k], the
    split point lies beyond that bracket, so the payload that is cut off is
    longer than [p] and the unit string is shorter than the unit text. *)
Theorem closer_in_unit_moves_split (p u : string) (k : nat) (a : ascii) :
  at_index u k a →
  is_closer a = true →
  PyStr.len p + Z.of_nat k + 1 ≤ end_list (p +:+ u)
  ∧ PyStr.len p < PyStr.len (value_string (p +:+ u))
  ∧ PyStr.len (unit_string (p +:+ u)) < PyStr.len u
  ∧ value_string (p +:+ u) ≠ p
  ∧ unit_string (p +:+ u) ≠ u.
Proof.
  unfold at_index, PyStr.len. intros Hk Ha.
  pose proof (get_Some_lt _ _ _ Hk) as Hlt.
  rewrite <- (get_app_r k p u) in Hk.
  pose proof (closer_below_end_list _ _ _ Hk Ha) as Hlow.
  pose proof (end_list_bounds (p +:+ u)) as Hb. unfold PyStr.len in Hb.
  rewrite length_app in Hb.
  assert (String.length p < String.length (value_string (p +:+ u)))%nat as Hv.
  { rewrite value_string_take, length_take, length_app. lia. }
  assert (String.length (unit_string (p +:+ u)) < String.length u)%nat as Hu.
  { rewrite unit_string_drop, length_drop, length_app. lia. }
  split; [lia|]. split; [lia|]. split; [lia|]. split.
  - intros E. rewrite E in Hv. lia.
  - intros E. rewrite E in Hu. lia.
Qed.

Lemma closer_in_unit_moves_split_witness :
  at_index " kJ/(mol*nm)" 11 ")"
  ∧ PyStr.len "[1, 2]" + Z.of_nat 11 + 1 ≤ end_list ("[1, 2]" +:+ " kJ/(mol*nm)")
  ∧ value_string ("[1, 2]" +:+ " kJ/(mol*nm)") ≠ "[1, 2]"
  ∧ unit_string ("[1, 2]" +:+ " kJ/(mol*nm)") ≠ " kJ/(mol*nm)".
Proof.
  split; [reflexivity|].
  pose proof (closer_in_unit_moves_split "[1, 2]" " kJ/(mol*nm)" 11 ")"
                eq_refl eq_refl) as (H1 & _ & _ & H2 & H3).
  exact (conj H1 (conj H2 H3)).
Defined.

(** X6. The payload is empty exactly when the string holds no closing
    bracket: the split point is 0 if and only if neither [')'] nor [']']
    occurs, and so is the payload the empty string. *)
Theorem payload_empty_iff_no_closer (s : string) :
  (end_list s = 0 ↔ no_closer s = true)
  ∧ (value_string s = "" ↔ no_closer s = true).
Proof.
  split.
  - split; [apply end_list_zero_no_closer | apply end_list_no_closer_zero].
  - split.
    + intros Hv. pose proof (end_list_bounds s) as Hb. unfold PyStr.len in Hb.
      assert (String.length (value_string s) = 0%nat) as Hlen by now rewrite Hv.
      rewrite value_string_take, length_take in Hlen.
      destruct (Z.eq_dec (end_list s) 0) as [H0|Hne];
        [now apply end_list_zero_no_closer|].
      assert (String.length s = 0%nat) as Hs by lia.
      destruct s; [reflexivity|discriminate].
    + intros Hno. rewrite value_string_take.
      now rewrite (end_list_no_closer_zero s Hno).
Qed.

(** ** More about the parser *)

Section ParserOutcomes.

Context {Obj : Type}.
Variable github_issues_web : string.
Variable site_packages : gmap string (gmap string string).
Variable digest_parser : PyVal Obj → outcome string.
Variable digest_to_form : PyVal Obj → outcome string.
Variable dict_translate_quantity :
  gmap string (gmap string (PyVal Obj → outcome (PyVal Obj))).
Variable literal_eval : string → outcome (PyVal Obj).
Variable py_mul : PyVal Obj → PyVal Obj → outcome (PyVal Obj).

#[local] Abbreviation native_parse :=
  (_parse_with_pint dict_translate_quantity literal_eval py_mul).
#[local] Abbreviation full_parse :=
  (parse github_issues_web site_packages digest_parser digest_to_form
     dict_translate_quantity literal_eval py_mul).

(** X7. A text that is empty, or whose first character is neither ['['] nor
    ['('] (a bracket after leading blanks included), takes the scalar
    branch: the only collaborator call is the string-to-pint converter on
    the whole text, whose outcome is the result, and without such a
    converter in the table the [KeyError] is raised before any call. *)
Theorem scalar_text_is_converted_whole (s : string) :
  s = "" ∨ (∃ a rest, s = String a rest ∧ a ≠ "["%char ∧ a ≠ "("%char) →
  is_non_scalar s = false
  ∧ native_parse s =
      match converter dict_translate_quantity "string" "pint" with
      | Return f => MkRun [Translate "string" "pint" (PyText s)] (f (PyText s))
      | Raise e => MkRun [] (Raise e)
      end.
Proof.
  intros Hs.
  assert (is_non_scalar s = false) as Hns.
  { destruct (is_non_scalar s) eqn:E; [|reflexivity].
    apply is_non_scalar_spec in E. destruct E as [rest E].
    destruct Hs as [-> | (a & rest' & -> & H1 & H2)].
    - destruct E; discriminate.
    - destruct E as [E|E]; injection E as E _; congruence. }
  split; [exact Hns|]. unfold _parse_with_pint, translate. rewrite Hns.
  unfold mbind, Run_bind, quiet, call. simpl.
  now destruct (converter dict_translate_quantity "string" "pint").
Qed.

(** X8. In the sequence branch a payload that [ast.literal_eval] rejects
    ends the run at once with the reader's exception: the translation table
    is not consulted and nothing is converted or multiplied. *)
Theorem bad_literal_is_raised_first (s : string) (e : Exn) :
  is_non_scalar s = true →
  literal_eval (value_string s) = Raise e →
  native_parse s = MkRun [LiteralEval (value_string s)] (Raise e).
Proof.
  intros Hns Hlit. unfold _parse_with_pint. rewrite Hns.
  unfold mbind, Run_bind, call. simpl. now rewrite Hlit.
Qed.

(** X9. Without a string-to-pint converter in the translation table the
    pint parse raises [KeyError] for the first missing key, ['string'] when
    the row is missing and ['pint'] when only the entry is. In the scalar
    branch this happens before any call, whatever the reader would do; in
    the sequence branch it happens after the payload has been read, when
    the reader returns. No conversion is ever made. *)
Theorem missing_converter_is_a_key_error (s : string) (key : string) :
  (dict_translate_quantity !! "string" = None ∧ key = "string")
  ∨ (∃ row, dict_translate_quantity !! "string" = Some row
            ∧ row !! "pint" = None ∧ key = "pint") →
  (is_non_scalar s = false →
     native_parse s = MkRun [] (Raise (KeyError key)))
  ∧ (is_non_scalar s = true →
     ∀ v, literal_eval (value_string s) = Return v →
          native_parse s =
            MkRun [LiteralEval (value_string s)] (Raise (KeyError key))).
Proof.
  intros Hkey.
  assert (converter dict_translate_quantity "string" "pint" = Raise (KeyError key))
    as Hconv.
  { unfold converter. destruct Hkey as [[-> ->] | (row & -> & -> & ->)]; reflexivity. }
  unfold _parse_with_pint, translate. split; intros Hns; rewrite Hns;
    unfold mbind, Run_bind, quiet, call; simpl.
  - now rewrite Hconv.
  - intros v Hlit. rewrite Hlit. simpl. now rewrite Hconv.
Qed.

(** X10. When the digestion of the parser raises, [parse] raises the same
    exception and has called nothing else: the target form is not digested
    and nothing is parsed. *)
Theorem parser_digestion_failure
    (callers : list FrameInfo) (text : string) (parser to_form : PyVal Obj) (e : Exn) :
  digest_parser parser = Raise e →
  full_parse callers (PyText text) parser to_form
  = MkRun [DigestParser parser] (Raise e).
Proof.
  intros Hp. unfold parse, mbind, Run_bind, call. simpl. now rewrite Hp.
Qed.

(** X11. When the parser digests, to whatever identifier, and the digestion
    of the target form raises, [parse] raises that exception after the two
    digestions: an unknown target form is reported before the missing parser
    of ['openmm.unit'] or ['unyt'], and before any parsing. *)
Theorem to_form_digestion_failure
    (callers : list FrameInfo) (text : string) (parser to_form : PyVal Obj)
    (source : string) (e : Exn) :
  digest_parser parser = Return source →
  digest_to_form to_form = Raise e →
  full_parse callers (PyText text) parser to_form
  = MkRun [DigestParser parser; DigestToForm to_form] (Raise e).
Proof.
  intros Hp Ht. unfold parse, mbind, Run_bind, call. simpl.
  rewrite Hp. simpl. now rewrite Ht.
Qed.

(** X12. [parse] returns a value only through the pint parser: whenever it
    returns, the first argument was a string, the parser digested to
    ['pint'], the target digested to one of ['pint'], ['openmm.unit'],
    ['string'], ['unyt'], and the pint parse of the text returned a quantity,
    which is the value itself when the target is ['pint']. *)
Theorem parse_returns_only_through_pint
    (callers : list FrameInfo) (string parser to_form : PyVal Obj) (v : PyVal Obj) :
  result (full_parse callers string parser to_form) = Return v →
  ∃ text target q,
    string = PyText text
    ∧ digest_parser parser = Return "pint"
    ∧ digest_to_form to_form = Return target
    ∧ (target = "pint" ∨ target = "openmm.unit" ∨ target = "string" ∨ target = "unyt")
    ∧ result (native_parse text) = Return q
    ∧ (target = "pint" → v = q).
Proof.
  destruct string as [| |text|]; try discriminate.
  unfold parse. unfold mbind at 1 2, Run_bind at 1 2, call at 1 2.
  cbn [result trace].
  destruct (digest_parser parser) as [source|] eqn:Hp; [|discriminate].
  cbn [result trace].
  destruct (digest_to_form to_form) as [target|] eqn:Ht; [|discriminate].
  cbn [result trace].
  destruct (String.eqb_spec source "pint") as [->|Hs].
  - destruct (native_parse text) as [tr [q|e]] eqn:Hn.
    + assert (result (native_parse text) = Return q) as Hq by now rewrite Hn.
      destruct (String.eqb_spec target "pint") as [->|H1].
      { cbn. intros [= ->]. exists text, "pint", v. repeat split; auto 6. }
      destruct (String.eqb_spec target "openmm.unit") as [->|H2];
        [intros _; exists text, "openmm.unit", q; repeat split; auto 6; discriminate|].
      destruct (String.eqb_spec target "string") as [->|H3];
        [intros _; exists text, "string", q; repeat split; auto 6; discriminate|].
      destruct (String.eqb_spec target "unyt") as [->|H4];
        [intros _; exists text, "unyt", q; repeat split; auto 6; discriminate|].
      apply String.eqb_neq in H1, H2, H3, H4. cbn. rewrite H1, H2, H3, H4. discriminate.
    + unfold mbind, Run_bind. cbn.
      destruct (String.eqb target "pint"); [discriminate|].
      destruct (String.eqb target "openmm.unit"); [discriminate|].
      destruct (String.eqb target "string"); [discriminate|].
      destruct (String.eqb target "unyt"); discriminate.
  - cbn.
    destruct (String.eqb source "openmm.unit"); [discriminate|].
    destruct (String.eqb source "unyt"); discriminate.
Qed.

(** X13. When the parser is ['pint'], the target is one of the four forms
    and the pint parse raises, [parse] raises the same exception right after
    the calls of the pint parse: no converter out of pint is looked up or
    called. *)
Theorem pint_parse_failure_is_not_translated
    (callers : list FrameInfo) (text : string) (parser to_form : PyVal Obj)
    (target : string) (e : Exn) :
  digest_parser parser = Return "pint" →
  digest_to_form to_form = Return target →
  target = "pint" ∨ target = "openmm.unit" ∨ target = "string" ∨ target = "unyt" →
  result (native_parse text) = Raise e →
  full_parse callers (PyText text) parser to_form
  = MkRun ([DigestParser parser; DigestToForm to_form] ++ trace (native_parse text))
          (Raise e).
Proof.
  intros Hp Ht Htarget He. unfold parse.
  unfold mbind at 1 2, Run_bind at 1 2, call at 1 2. cbn [result trace].
  rewrite Hp. cbn [result trace]. rewrite Ht. cbn [result trace].
  destruct (native_parse text) as [tr r] eqn:Hn. cbn in He. subst r.
  destruct Htarget as [-> | [-> | [-> | ->]]]; cbn;
    unfold mbind, Run_bind; rewrite ?Hn; reflexivity.
Qed.

End ParserOutcomes.

Lemma scalar_text_is_converted_whole_witness :
  is_non_scalar "10 nm" = false
  ∧ Demo.parse_with_pint "10 nm" =
      MkRun [Translate "string" "pint" (PyText "10 nm")]
            (Return (PyObj (Demo.Quantity "pint" [10] "nm"))).
Proof.
  apply (scalar_text_is_converted_whole Demo.dict_translate_quantity
           Demo.literal_eval Demo.py_mul "10 nm").
  right. exists "1"%char, "0 nm". repeat split; discriminate.
Defined.

Lemma bad_literal_is_raised_first_witness :
  is_non_scalar "[1, 2 kJ" = true
  ∧ Demo.literal_eval (value_string "[1, 2 kJ") = Raise (Raised "SyntaxError" "invalid syntax")
  ∧ Demo.parse_with_pint "[1, 2 kJ" =
      MkRun [LiteralEval (value_string "[1, 2 kJ")]
            (Raise (Raised "SyntaxError" "invalid syntax")).
Proof.
  split; [reflexivity|]. split; [reflexivity|].
  apply (bad_literal_is_raised_first Demo.dict_translate_quantity
           Demo.literal_eval Demo.py_mul "[1, 2 kJ"); reflexivity.
Defined.

Lemma missing_converter_is_a_key_error_witness :
  is_non_scalar "10 nm" = false
  ∧ Demo.literal_eval (value_string "10 nm") = Raise (Raised "SyntaxError" "invalid syntax")
  ∧ _parse_with_pint (∅ : gmap string (gmap string (Demo.value → outcome Demo.value)))
      Demo.literal_eval Demo.py_mul "10 nm"
    = MkRun [] (Raise (KeyError "string"))
  ∧ is_non_scalar "[1, 2, 3] kJ" = true
  ∧ _parse_with_pint
      ({[ "string" := ∅ ]} : gmap string (gmap string (Demo.value → outcome Demo.value)))
      Demo.literal_eval Demo.py_mul "[1, 2, 3] kJ"
    = MkRun [LiteralEval (value_string "[1, 2, 3] kJ")] (Raise (KeyError "pint")).
Proof.
  split; [reflexivity|]. split; [reflexivity|]. split; [|split; [reflexivity|]].
  - apply (missing_converter_is_a_key_error
             (∅ : gmap string (gmap string (Demo.value → outcome Demo.value)))
             Demo.literal_eval Demo.py_mul "10 nm" "string");
      [left; split; reflexivity | reflexivity].
  - refine (proj2 (missing_converter_is_a_key_error
             ({[ "string" := ∅ ]}
                : gmap string (gmap string (Demo.value → outcome Demo.value)))
             Demo.literal_eval Demo.py_mul "[1, 2, 3] kJ" "pint" _)
             eq_refl (PyObj (Demo.Sequence [1; 2; 3])) eq_refl).
    right. exists ∅. repeat split; reflexivity.
Defined.

Lemma parser_digestion_failure_witness :
  Demo.digest (PyInt 3) = Raise (Raised "TypeError" "not a form")
  ∧ Demo.parse (PyText "10 nm") (PyInt 3) PyNone
    = MkRun [DigestParser (PyInt 3)] (Raise (Raised "TypeError" "not a form")).
Proof.
  split; [reflexivity|].
  apply (parser_digestion_failure Demo.github_issues_web Demo.site_packages
           Demo.digest Demo.digest Demo.dict_translate_quantity Demo.literal_eval
           Demo.py_mul Demo.callers "10 nm" (PyInt 3) PyNone).
  reflexivity.
Defined.

Lemma to_form_digestion_failure_witness :
  Demo.digest (PyText "unyt") = Return "unyt"
  ∧ Demo.digest (PyInt 3) = Raise (Raised "TypeError" "not a form")
  ∧ Demo.parse (PyText "10 nm") (PyText "unyt") (PyInt 3)
    = MkRun [DigestParser (PyText "unyt"); DigestToForm (PyInt 3)]
            (Raise (Raised "TypeError" "not a form")).
Proof.
  split; [reflexivity|]. split; [reflexivity|].
  apply (to_form_digestion_failure Demo.github_issues_web Demo.site_packages
           Demo.digest Demo.digest Demo.dict_translate_quantity Demo.literal_eval
           Demo.py_mul Demo.callers "10 nm" (PyText "unyt") (PyInt 3) "unyt");
    reflexivity.
Defined.

Lemma parse_returns_only_through_pint_witness :
  result (Demo.parse (PyText "10 nm") PyNone (PyText "string"))
    = Return (PyObj (Demo.Quantity "string" [10] "nm"))
  ∧ ∃ text target q,
      (PyText "10 nm" : Demo.value) = PyText text
      ∧ Demo.digest PyNone = Return "pint"
      ∧ Demo.digest (PyText "string") = Return target
      ∧ (target = "pint" ∨ target = "openmm.unit" ∨ target = "string" ∨ target = "unyt")
      ∧ result (Demo.parse_with_pint text) = Return q
      ∧ (target = "pint" → PyObj (Demo.Quantity "string" [10] "nm") = q).
Proof.
  split; [reflexivity|].
  apply (parse_returns_only_through_pint Demo.github_issues_web Demo.site_packages
           Demo.digest Demo.digest Demo.dict_translate_quantity Demo.literal_eval
           Demo.py_mul Demo.callers (PyText "10 nm") PyNone (PyText "string")).
  reflexivity.
Defined.

Lemma pint_parse_failure_is_not_translated_witness :
  result (Demo.parse_with_pint "[1, 2 kJ") = Raise (Raised "SyntaxError" "invalid syntax")
  ∧ Demo.parse (PyText "[1, 2 kJ") PyNone (PyText "unyt")
    = MkRun ([DigestParser PyNone; DigestToForm (PyText "unyt")]
             ++ trace (Demo.parse_with_pint "[1, 2 kJ"))
            (Raise (Raised "SyntaxError" "invalid syntax")).
Proof.
  split; [reflexivity|].
  apply (pint_parse_failure_is_not_translated Demo.github_issues_web
           Demo.site_packages Demo.digest Demo.digest Demo.dict_translate_quantity
           Demo.literal_eval Demo.py_mul Demo.callers "[1, 2 kJ" PyNone
           (PyText "unyt") "unyt");
    [reflexivity | reflexivity | | reflexivity].
  right. right. right. reflexivity.
Defined.

Lemma parse_with_pint_reads_string_row {Obj : Type}
    (d1 d2 : gmap string (gmap string (PyVal Obj → outcome (PyVal Obj))))
    (literal_eval : string → outcome (PyVal Obj))
    (py_mul : PyVal Obj → PyVal Obj → outcome (PyVal Obj)) (s : string) :
  d1 !! "string" = d2 !! "string" →
  _parse_with_pint d1 literal_eval py_mul s = _parse_with_pint d2 literal_eval py_mul s.
Proof.
  intros Hrow. unfold _parse_with_pint, translate, converter. now rewrite Hrow.
Qed.

(** X14. For the target form ['pint'], [parse] reads nothing of the
    translation table but its ['string'] row: two tables with the same
    ['string'] row give the same run, whatever their other rows hold, so no
    pint-to-pint converter is needed or used. *)
Theorem native_target_reads_only_string_row {Obj : Type}
    (github_issues_web : string) (site_packages : gmap string (gmap string string))
    (digest_parser digest_to_form : PyVal Obj → outcome string)
    (d1 d2 : gmap string (gmap string (PyVal Obj → outcome (PyVal Obj))))
    (literal_eval : string → outcome (PyVal Obj))
    (py_mul : PyVal Obj → PyVal Obj → outcome (PyVal Obj))
    (callers : list FrameInfo) (string parser to_form : PyVal Obj) :
  d1 !! "string" = d2 !! "string" →
  digest_to_form to_form = Return "pint" →
  parse github_issues_web site_packages digest_parser digest_to_form d1
    literal_eval py_mul callers string parser to_form
  = parse github_issues_web site_packages digest_parser digest_to_form d2
      literal_eval py_mul callers string parser to_form.
Proof.
  intros Hrow Ht. destruct string as [| |text|]; try reflexivity.
  unfold parse. unfold mbind at 1 2 5 6, Run_bind at 1 2 5 6.
  destruct (digest_parser parser) as [source|]; [|reflexivity].
  cbn [call result trace]. rewrite Ht. cbn [result trace].
  destruct (String.eqb source "pint"); [|reflexivity].
  cbn. now rewrite (parse_with_pint_reads_string_row d1 d2 _ _ _ Hrow).
Qed.

Lemma native_target_reads_only_string_row_witness :
  Demo.parse (PyText "[1, 2, 3] kJ") PyNone PyNone
  = parse Demo.github_issues_web Demo.site_packages Demo.digest Demo.digest
      {[ "string" := {[ "pint" := Demo.string_to_pint ]} ]}
      Demo.literal_eval Demo.py_mul Demo.callers
      (PyText "[1, 2, 3] kJ") PyNone PyNone.
Proof.
  apply (native_target_reads_only_string_row Demo.github_issues_web
           Demo.site_packages Demo.digest Demo.digest Demo.dict_translate_quantity
           {[ "string" := {[ "pint" := Demo.string_to_pint ]} ]}
           Demo.literal_eval Demo.py_mul Demo.callers
           (PyText "[1, 2, 3] kJ") PyNone PyNone);
    reflexivity.
Defined.

(** ** More about the exception classes *)

Section ExceptionMessages.

Variable github_issues_web : string.
Variable site_packages : gmap string (gmap string string).

#[local] Abbreviation make := (construct github_issues_web site_packages).

(** X15. Raised in any function, [LibraryNotFoundError(library)] is built
    with a message that holds the name of the library, the name of the
    function that raised it, read from the call stack, and the address of
    the issues board. *)
Theorem LibraryNotFoundError_message_names
    (library : string) (caller : FrameInfo) (outer : list FrameInfo) :
  ∃ message,
    make LibraryNotFoundErrorC [library] (caller :: outer)
      = Return (LibraryNotFoundError message)
    ∧ contains library message = true
    ∧ contains (function caller) message = true
    ∧ contains github_issues_web message = true.
Proof.
  exists (LibraryNotFoundError_message library (function caller) github_issues_web).
  split; [reflexivity|]. unfold LibraryNotFoundError_message.
  repeat split; find_in_message.
Qed.

(** X16. Raised in any function, [LibraryWithoutParserError(library)] is
    built with the very text that [LibraryNotFoundError] builds for the same
    library and caller: it holds the library, the caller and the issues
    board, and says that the library was not found. *)
Theorem LibraryWithoutParserError_message_is_not_found
    (library : string) (caller : FrameInfo) (outer : list FrameInfo) :
  ∃ message,
    make LibraryWithoutParserErrorC [library] (caller :: outer)
      = Return (LibraryWithoutParserError message)
    ∧ make LibraryNotFoundErrorC [library] (caller :: outer)
      = Return (LibraryNotFoundError message)
    ∧ contains library message = true
    ∧ contains (function caller) message = true
    ∧ contains github_issues_web message = true
    ∧ contains " was not found. " message = true.
Proof.
  exists (LibraryWithoutParserError_message library (function caller) github_issues_web).
  split; [reflexivity|]. split; [reflexivity|].
  unfold LibraryWithoutParserError_message.
  repeat split; find_in_message.
Qed.

(** X17. [UnknownFormError()] never yields an exception object, in any
    installation and from any caller: where [sabueso] is not installed its
    constructor raises [ModuleNotFoundError], and where [sabueso] provides
    the address of its issues board it raises [NameError] for
    [method_name]. *)
Theorem UnknownFormError_always_fails (callers : list FrameInfo) :
  (∀ e, make UnknownFormErrorC [] callers ≠ Return e)
  ∧ (site_packages !! "sabueso" = None →
     make UnknownFormErrorC [] callers = Raise (ModuleNotFoundError "sabueso"))
  ∧ (∀ attributes web caller outer,
       site_packages !! "sabueso" = Some attributes →
       attributes !! "__github_issues_web__" = Some web →
       callers = caller :: outer →
       make UnknownFormErrorC [] callers = Raise (NameError "method_name")).
Proof.
  unfold construct, UnknownFormError_init, import_from. cbn [String.eqb Ascii.eqb].
  change (String.eqb "sabueso" "pyunitwizard") with false. cbn iota.
  split; [|split].
  - intros e. destruct (site_packages !! "sabueso") as [attributes|]; [|discriminate].
    destruct (attributes !! "__github_issues_web__"); [|discriminate].
    simpl. destruct callers; discriminate.
  - now intros ->.
  - intros attributes web caller outer -> -> ->. reflexivity.
Qed.

(** X18. The message of [NoStandardsError] is one fixed text, the same from
    every caller: it holds the address of the issues board and does not
    depend on the call stack. *)
Theorem NoStandardsError_message_is_fixed :
  ∃ message,
    contains github_issues_web message = true
    ∧ ∀ caller outer,
        make NoStandardsErrorC [] (caller :: outer) = Return (NoStandardsError message).
Proof.
  exists (NoStandardsError_message "" github_issues_web). split.
  - unfold NoStandardsError_message. find_in_message.
  - reflexivity.
Qed.

End ExceptionMessages.
